(** * Verification of spoofer_collector.py (CAIDA spoofer data collection)

    A shallow embedding of the [SpooferCollector] class: the page fetcher with
    retry ([fetch_page]), the record formatter ([format_record]), the
    classifier ([process_data]), the estimator ([estimate_completion],
    [update_progress]) and the collection loop ([collect_data]).

    Python values coming from the JSON API are modelled by [json].  Numbers
    are integers (the fields used by the program are strings and integers);
    a Python [str] is held as its UTF-8 encoding (a Rocq [string] of bytes);
    a JSON object is an association list with one binding per key, as
    produced by the JSON parser.  Python floats are IEEE 754 binary64
    numbers ([spec_float] with 53 bits of precision and maximal exponent
    1024).  Exceptions are the constructors of [exc]; the wall clock is an
    input (the float [time.time() - self.start_time]). *)

From Stdlib Require Import ZArith QArith Qround Qabs List String Ascii Bool Lia Lqa.
From Stdlib Require Import Numbers.DecimalString Floats.SpecFloat.
Import ListNotations.
Set Warnings "-register-all".
Open Scope string_scope.

(* ------------------------------------------------------------------ *)
(** ** Python values and builtins *)

Inductive json : Type :=
| JNull : json                          (* None / null *)
| JBool : bool -> json
| JNum : Z -> json
| JStr : string -> json
| JArr : list json -> json
| JObj : list (string * json) -> json.

(** Python exceptions that the program can raise or catch. *)
Inductive exc : Type :=
| AttributeError | TypeError | KeyError | ValueError | IndexError
| ZeroDivisionError | OverflowError.

Inductive pyres (A : Type) : Type :=
| Ok : A -> pyres A
| Raise : exc -> pyres A.
Arguments Ok {A} _.
Arguments Raise {A} _.

Definition bind {A B} (m : pyres A) (k : A -> pyres B) : pyres B :=
  match m with Ok a => k a | Raise e => Raise e end.
Notation "x <- m ;; k" := (bind m (fun x => k))
  (at level 61, m at next level, right associativity).

(** [d.get(k)] on a dict: [None] when the key is missing. *)
Fixpoint dict_get (d : list (string * json)) (k : string) : option json :=
  match d with
  | [] => None
  | (k', v) :: d' => if String.eqb k k' then Some v else dict_get d' k
  end.

(** [d.get(k, default)]; [d.get(k)] is [dict_get_or d k JNull]. *)
Definition dict_get_or (d : list (string * json)) (k : string) (dflt : json) : json :=
  match dict_get d k with Some v => v | None => dflt end.

(** [v.get(k, default)] on any value: only dicts have [get]. *)
Definition py_get (v : json) (k : string) (dflt : json) : pyres json :=
  match v with
  | JObj d => Ok (dict_get_or d k dflt)
  | _ => Raise AttributeError
  end.

(** Python truthiness. *)
Definition truthy (v : json) : bool :=
  match v with
  | JNull => false
  | JBool b => b
  | JNum z => negb (Z.eqb z 0)
  | JStr s => negb (String.eqb s "")
  | JArr l => match l with [] => false | _ => true end
  | JObj d => match d with [] => false | _ => true end
  end.

(** [v == "s"]: only a string equal to [s] compares equal. *)
Definition eq_str (v : json) (s : string) : bool :=
  match v with JStr s' => String.eqb s' s | _ => false end.

Definition Z_str (z : Z) : string := NilEmpty.string_of_int (Z.to_int z).

(** Substring test, [a in s] for strings (on UTF-8 bytes this is the test
    on code points). *)
Fixpoint substr_in (a s : string) : bool :=
  String.prefix a s ||
  match s with EmptyString => false | String _ s' => substr_in a s' end.

(** *** Code points *)

Definition byte (c : ascii) : Z := Z.of_N (N_of_ascii c).

Definition is_cont (c : ascii) : bool := (128 <=? byte c)%Z && (byte c <? 192)%Z.

(** The bytes of each code point: a byte with the continuation bytes that
    follow it. *)
Fixpoint utf8_chunks (l : list ascii) : list (list ascii) :=
  match l with
  | [] => []
  | c :: l' =>
      match utf8_chunks l' with
      | (d :: k) :: ks => if is_cont d then (c :: d :: k) :: ks else [c] :: (d :: k) :: ks
      | ks => [c] :: ks
      end
  end.

(** The code point of one UTF-8 sequence. *)
Definition code_point (k : list ascii) : option Z :=
  match k with
  | [a] => if (byte a <? 128)%Z then Some (byte a) else None
  | [a; b] =>
      if (192 <=? byte a)%Z && (byte a <? 224)%Z
      then Some ((byte a - 192) * 64 + (byte b - 128))%Z else None
  | [a; b; c] =>
      if (224 <=? byte a)%Z && (byte a <? 240)%Z
      then Some (((byte a - 224) * 64 + (byte b - 128)) * 64 + (byte c - 128))%Z else None
  | [a; b; c; d] =>
      if (240 <=? byte a)%Z && (byte a <? 248)%Z
      then Some ((((byte a - 240) * 64 + (byte b - 128)) * 64 + (byte c - 128)) * 64
                 + (byte d - 128))%Z
      else None
  | _ => None
  end.

Definition chars (s : string) : list string :=
  map string_of_list_ascii (utf8_chunks (list_ascii_of_string s)).

(** Zero points of the Unicode decimal digit runs (Unicode 14.0, the
    database of CPython 3.11): code point [z + d] is the digit [d]. *)
Definition unicode_decimal_zeros : list Z :=
  [48; 1632; 1776; 1984; 2406; 2534; 2662; 2790;
   2918; 3046; 3174; 3302; 3430; 3558; 3664; 3792;
   3872; 4160; 4240; 6112; 6160; 6470; 6608; 6784;
   6800; 6992; 7088; 7232; 7248; 42528; 43216; 43264;
   43472; 43504; 43600; 44016; 65296; 66720; 68912; 69734;
   69872; 69942; 70096; 70384; 70736; 70864; 71248; 71360;
   71472; 71904; 72016; 72784; 73040; 73120; 92768; 92864;
   93008; 120782; 120792; 120802; 120812; 120822; 123200; 123632;
   125264; 130032]%Z.

(** Code points from 127 on that [str.isspace] accepts. *)
Definition unicode_spaces : list Z :=
  [133; 160; 5760; 8192; 8193; 8194; 8195; 8196;
   8197; 8198; 8199; 8200; 8201; 8202; 8232; 8233;
   8239; 8287; 12288]%Z.

(** Maximal ranges of code points [str.isprintable] rejects. *)
Definition nonprintable_ranges : list (Z * Z) :=
  [(0, 31); (127, 160); (173, 173); (888, 889); (896, 899);
   (907, 907); (909, 909); (930, 930); (1328, 1328); (1367, 1368);
   (1419, 1420); (1424, 1424); (1480, 1487); (1515, 1518); (1525, 1541);
   (1564, 1564); (1757, 1757); (1806, 1807); (1867, 1868); (1970, 1983);
   (2043, 2044); (2094, 2095); (2111, 2111); (2140, 2141); (2143, 2143);
   (2155, 2159); (2191, 2199); (2274, 2274); (2436, 2436); (2445, 2446);
   (2449, 2450); (2473, 2473); (2481, 2481); (2483, 2485); (2490, 2491);
   (2501, 2502); (2505, 2506); (2511, 2518); (2520, 2523); (2526, 2526);
   (2532, 2533); (2559, 2560); (2564, 2564); (2571, 2574); (2577, 2578);
   (2601, 2601); (2609, 2609); (2612, 2612); (2615, 2615); (2618, 2619);
   (2621, 2621); (2627, 2630); (2633, 2634); (2638, 2640); (2642, 2648);
   (2653, 2653); (2655, 2661); (2679, 2688); (2692, 2692); (2702, 2702);
   (2706, 2706); (2729, 2729); (2737, 2737); (2740, 2740); (2746, 2747);
   (2758, 2758); (2762, 2762); (2766, 2767); (2769, 2783); (2788, 2789);
   (2802, 2808); (2816, 2816); (2820, 2820); (2829, 2830); (2833, 2834);
   (2857, 2857); (2865, 2865); (2868, 2868); (2874, 2875); (2885, 2886);
   (2889, 2890); (2894, 2900); (2904, 2907); (2910, 2910); (2916, 2917);
   (2936, 2945); (2948, 2948); (2955, 2957); (2961, 2961); (2966, 2968);
   (2971, 2971); (2973, 2973); (2976, 2978); (2981, 2983); (2987, 2989);
   (3002, 3005); (3011, 3013); (3017, 3017); (3022, 3023); (3025, 3030);
   (3032, 3045); (3067, 3071); (3085, 3085); (3089, 3089); (3113, 3113);
   (3130, 3131); (3141, 3141); (3145, 3145); (3150, 3156); (3159, 3159);
   (3163, 3164); (3166, 3167); (3172, 3173); (3184, 3190); (3213, 3213);
   (3217, 3217); (3241, 3241); (3252, 3252); (3258, 3259); (3269, 3269);
   (3273, 3273); (3278, 3284); (3287, 3292); (3295, 3295); (3300, 3301);
   (3312, 3312); (3315, 3327); (3341, 3341); (3345, 3345); (3397, 3397);
   (3401, 3401); (3408, 3411); (3428, 3429); (3456, 3456); (3460, 3460);
   (3479, 3481); (3506, 3506); (3516, 3516); (3518, 3519); (3527, 3529);
   (3531, 3534); (3541, 3541); (3543, 3543); (3552, 3557); (3568, 3569);
   (3573, 3584); (3643, 3646); (3676, 3712); (3715, 3715); (3717, 3717);
   (3723, 3723); (3748, 3748); (3750, 3750); (3774, 3775); (3781, 3781);
   (3783, 3783); (3790, 3791); (3802, 3803); (3808, 3839); (3912, 3912);
   (3949, 3952); (3992, 3992); (4029, 4029); (4045, 4045); (4059, 4095);
   (4294, 4294); (4296, 4300); (4302, 4303); (4681, 4681); (4686, 4687);
   (4695, 4695); (4697, 4697); (4702, 4703); (4745, 4745); (4750, 4751);
   (4785, 4785); (4790, 4791); (4799, 4799); (4801, 4801); (4806, 4807);
   (4823, 4823); (4881, 4881); (4886, 4887); (4955, 4956); (4989, 4991);
   (5018, 5023); (5110, 5111); (5118, 5119); (5760, 5760); (5789, 5791);
   (5881, 5887); (5910, 5918); (5943, 5951); (5972, 5983); (5997, 5997);
   (6001, 6001); (6004, 6015); (6110, 6111); (6122, 6127); (6138, 6143);
   (6158, 6158); (6170, 6175); (6265, 6271); (6315, 6319); (6390, 6399);
   (6431, 6431); (6444, 6447); (6460, 6463); (6465, 6467); (6510, 6511);
   (6517, 6527); (6572, 6575); (6602, 6607); (6619, 6621); (6684, 6685);
   (6751, 6751); (6781, 6782); (6794, 6799); (6810, 6815); (6830, 6831);
   (6863, 6911); (6989, 6991); (7039, 7039); (7156, 7163); (7224, 7226);
   (7242, 7244); (7305, 7311); (7355, 7356); (7368, 7375); (7419, 7423);
   (7958, 7959); (7966, 7967); (8006, 8007); (8014, 8015); (8024, 8024);
   (8026, 8026); (8028, 8028); (8030, 8030); (8062, 8063); (8117, 8117);
   (8133, 8133); (8148, 8149); (8156, 8156); (8176, 8177); (8181, 8181);
   (8191, 8207); (8232, 8239); (8287, 8303); (8306, 8307); (8335, 8335);
   (8349, 8351); (8385, 8399); (8433, 8447); (8588, 8591); (9255, 9279);
   (9291, 9311); (11124, 11125); (11158, 11158); (11508, 11512); (11558, 11558);
   (11560, 11564); (11566, 11567); (11624, 11630); (11633, 11646); (11671, 11679);
   (11687, 11687); (11695, 11695); (11703, 11703); (11711, 11711); (11719, 11719);
   (11727, 11727); (11735, 11735); (11743, 11743); (11870, 11903); (11930, 11930);
   (12020, 12031); (12246, 12271); (12284, 12288); (12352, 12352); (12439, 12440);
   (12544, 12548); (12592, 12592); (12687, 12687); (12772, 12783); (12831, 12831);
   (42125, 42127); (42183, 42191); (42540, 42559); (42744, 42751); (42955, 42959);
   (42962, 42962); (42964, 42964); (42970, 42993); (43053, 43055); (43066, 43071);
   (43128, 43135); (43206, 43213); (43226, 43231); (43348, 43358); (43389, 43391);
   (43470, 43470); (43482, 43485); (43519, 43519); (43575, 43583); (43598, 43599);
   (43610, 43611); (43715, 43738); (43767, 43776); (43783, 43784); (43791, 43792);
   (43799, 43807); (43815, 43815); (43823, 43823); (43884, 43887); (44014, 44015);
   (44026, 44031); (55204, 55215); (55239, 55242); (55292, 63743); (64110, 64111);
   (64218, 64255); (64263, 64274); (64280, 64284); (64311, 64311); (64317, 64317);
   (64319, 64319); (64322, 64322); (64325, 64325); (64451, 64466); (64912, 64913);
   (64968, 64974); (64976, 65007); (65050, 65055); (65107, 65107); (65127, 65127);
   (65132, 65135); (65141, 65141); (65277, 65280); (65471, 65473); (65480, 65481);
   (65488, 65489); (65496, 65497); (65501, 65503); (65511, 65511); (65519, 65531);
   (65534, 65535); (65548, 65548); (65575, 65575); (65595, 65595); (65598, 65598);
   (65614, 65615); (65630, 65663); (65787, 65791); (65795, 65798); (65844, 65846);
   (65935, 65935); (65949, 65951); (65953, 65999); (66046, 66175); (66205, 66207);
   (66257, 66271); (66300, 66303); (66340, 66348); (66379, 66383); (66427, 66431);
   (66462, 66462); (66500, 66503); (66518, 66559); (66718, 66719); (66730, 66735);
   (66772, 66775); (66812, 66815); (66856, 66863); (66916, 66926); (66939, 66939);
   (66955, 66955); (66963, 66963); (66966, 66966); (66978, 66978); (66994, 66994);
   (67002, 67002); (67005, 67071); (67383, 67391); (67414, 67423); (67432, 67455);
   (67462, 67462); (67505, 67505); (67515, 67583); (67590, 67591); (67593, 67593);
   (67638, 67638); (67641, 67643); (67645, 67646); (67670, 67670); (67743, 67750);
   (67760, 67807); (67827, 67827); (67830, 67834); (67868, 67870); (67898, 67902);
   (67904, 67967); (68024, 68027); (68048, 68049); (68100, 68100); (68103, 68107);
   (68116, 68116); (68120, 68120); (68150, 68151); (68155, 68158); (68169, 68175);
   (68185, 68191); (68256, 68287); (68327, 68330); (68343, 68351); (68406, 68408);
   (68438, 68439); (68467, 68471); (68498, 68504); (68509, 68520); (68528, 68607);
   (68681, 68735); (68787, 68799); (68851, 68857); (68904, 68911); (68922, 69215);
   (69247, 69247); (69290, 69290); (69294, 69295); (69298, 69375); (69416, 69423);
   (69466, 69487); (69514, 69551); (69580, 69599); (69623, 69631); (69710, 69713);
   (69750, 69758); (69821, 69821); (69827, 69839); (69865, 69871); (69882, 69887);
   (69941, 69941); (69960, 69967); (70007, 70015); (70112, 70112); (70133, 70143);
   (70162, 70162); (70207, 70271); (70279, 70279); (70281, 70281); (70286, 70286);
   (70302, 70302); (70314, 70319); (70379, 70383); (70394, 70399); (70404, 70404);
   (70413, 70414); (70417, 70418); (70441, 70441); (70449, 70449); (70452, 70452);
   (70458, 70458); (70469, 70470); (70473, 70474); (70478, 70479); (70481, 70486);
   (70488, 70492); (70500, 70501); (70509, 70511); (70517, 70655); (70748, 70748);
   (70754, 70783); (70856, 70863); (70874, 71039); (71094, 71095); (71134, 71167);
   (71237, 71247); (71258, 71263); (71277, 71295); (71354, 71359); (71370, 71423);
   (71451, 71452); (71468, 71471); (71495, 71679); (71740, 71839); (71923, 71934);
   (71943, 71944); (71946, 71947); (71956, 71956); (71959, 71959); (71990, 71990);
   (71993, 71994); (72007, 72015); (72026, 72095); (72104, 72105); (72152, 72153);
   (72165, 72191); (72264, 72271); (72355, 72367); (72441, 72703); (72713, 72713);
   (72759, 72759); (72774, 72783); (72813, 72815); (72848, 72849); (72872, 72872);
   (72887, 72959); (72967, 72967); (72970, 72970); (73015, 73017); (73019, 73019);
   (73022, 73022); (73032, 73039); (73050, 73055); (73062, 73062); (73065, 73065);
   (73103, 73103); (73106, 73106); (73113, 73119); (73130, 73439); (73465, 73647);
   (73649, 73663); (73714, 73726); (74650, 74751); (74863, 74863); (74869, 74879);
   (75076, 77711); (77811, 77823); (78895, 82943); (83527, 92159); (92729, 92735);
   (92767, 92767); (92778, 92781); (92863, 92863); (92874, 92879); (92910, 92911);
   (92918, 92927); (92998, 93007); (93018, 93018); (93026, 93026); (93048, 93052);
   (93072, 93759); (93851, 93951); (94027, 94030); (94088, 94094); (94112, 94175);
   (94181, 94191); (94194, 94207); (100344, 100351); (101590, 101631); (101641, 110575);
   (110580, 110580); (110588, 110588); (110591, 110591); (110883, 110927); (110931, 110947);
   (110952, 110959); (111356, 113663); (113771, 113775); (113789, 113791); (113801, 113807);
   (113818, 113819); (113824, 118527); (118574, 118575); (118599, 118607); (118724, 118783);
   (119030, 119039); (119079, 119080); (119155, 119162); (119275, 119295); (119366, 119519);
   (119540, 119551); (119639, 119647); (119673, 119807); (119893, 119893); (119965, 119965);
   (119968, 119969); (119971, 119972); (119975, 119976); (119981, 119981); (119994, 119994);
   (119996, 119996); (120004, 120004); (120070, 120070); (120075, 120076); (120085, 120085);
   (120093, 120093); (120122, 120122); (120127, 120127); (120133, 120133); (120135, 120137);
   (120145, 120145); (120486, 120487); (120780, 120781); (121484, 121498); (121504, 121504);
   (121520, 122623); (122655, 122879); (122887, 122887); (122905, 122906); (122914, 122914);
   (122917, 122917); (122923, 123135); (123181, 123183); (123198, 123199); (123210, 123213);
   (123216, 123535); (123567, 123583); (123642, 123646); (123648, 124895); (124903, 124903);
   (124908, 124908); (124911, 124911); (124927, 124927); (125125, 125126); (125143, 125183);
   (125260, 125263); (125274, 125277); (125280, 126064); (126133, 126208); (126270, 126463);
   (126468, 126468); (126496, 126496); (126499, 126499); (126501, 126502); (126504, 126504);
   (126515, 126515); (126520, 126520); (126522, 126522); (126524, 126529); (126531, 126534);
   (126536, 126536); (126538, 126538); (126540, 126540); (126544, 126544); (126547, 126547);
   (126549, 126550); (126552, 126552); (126554, 126554); (126556, 126556); (126558, 126558);
   (126560, 126560); (126563, 126563); (126565, 126566); (126571, 126571); (126579, 126579);
   (126584, 126584); (126589, 126589); (126591, 126591); (126602, 126602); (126620, 126624);
   (126628, 126628); (126634, 126634); (126652, 126703); (126706, 126975); (127020, 127023);
   (127124, 127135); (127151, 127152); (127168, 127168); (127184, 127184); (127222, 127231);
   (127406, 127461); (127491, 127503); (127548, 127551); (127561, 127567); (127570, 127583);
   (127590, 127743); (128728, 128732); (128749, 128751); (128765, 128767); (128884, 128895);
   (128985, 128991); (129004, 129007); (129009, 129023); (129036, 129039); (129096, 129103);
   (129114, 129119); (129160, 129167); (129198, 129199); (129202, 129279); (129620, 129631);
   (129646, 129647); (129653, 129655); (129661, 129663); (129671, 129679); (129709, 129711);
   (129723, 129727); (129734, 129743); (129754, 129759); (129768, 129775); (129783, 129791);
   (129939, 129939); (129995, 130031); (130042, 131071); (173792, 173823); (177977, 177983);
   (178206, 178207); (183970, 183983); (191457, 194559); (195102, 196607); (201547, 917759);
   (918000, 1114111)]%Z.

Definition in_ranges (cp : Z) (rs : list (Z * Z)) : bool :=
  existsb (fun ab => (fst ab <=? cp)%Z && (cp <=? snd ab)%Z) rs.

(** *** [repr] and [str] *)

Definition bs : ascii := ascii_of_nat 92.      (* backslash *)
Definition dq : ascii := ascii_of_nat 34.      (* double quote *)
Definition sq : ascii := "'"%char.

Definition hex_digit (n : Z) : ascii :=
  ascii_of_N (Z.to_N (if (n <? 10)%Z then 48 + n else 87 + n)).

(** [k] lowercase hexadecimal digits of [n]. *)
Fixpoint hex_pad (k : nat) (n : Z) : string :=
  match k with
  | O => ""
  | S k' => hex_pad k' (n / 16) ++ String (hex_digit (n mod 16)) ""
  end.

(** One character of [repr(s)] when [quote] delimits it. *)
Definition repr_char (quote : ascii) (k : list ascii) : string :=
  match code_point k with
  | None => string_of_list_ascii k
  | Some cp =>
      if (cp =? 92)%Z || (cp =? byte quote)%Z then String bs (string_of_list_ascii k)
      else if (cp =? 9)%Z then String bs "t"
      else if (cp =? 10)%Z then String bs "n"
      else if (cp =? 13)%Z then String bs "r"
      else if (cp <? 32)%Z || (cp =? 127)%Z then String bs ("x" ++ hex_pad 2 cp)
      else if (cp <? 128)%Z then string_of_list_ascii k
      else if negb (in_ranges cp nonprintable_ranges) then string_of_list_ascii k
      else if (cp <? 256)%Z then String bs ("x" ++ hex_pad 2 cp)
      else if (cp <? 65536)%Z then String bs ("u" ++ hex_pad 4 cp)
      else String bs ("U" ++ hex_pad 8 cp)
  end.

(** [repr(s)] of a str: double quotes when [s] has a single quote and no
    double quote, single quotes otherwise. *)
Definition repr_str (s : string) : string :=
  let l := list_ascii_of_string s in
  let quote := if existsb (Ascii.eqb sq) l && negb (existsb (Ascii.eqb dq) l) then dq else sq in
  String quote (String.concat "" (map (repr_char quote) (utf8_chunks l)) ++ String quote "").

(** [str(v)] as used by f-strings; containers are rendered with their
    [repr]. *)
Fixpoint py_repr (v : json) : string :=
  match v with
  | JNull => "None"
  | JBool true => "True"
  | JBool false => "False"
  | JNum z => Z_str z
  | JStr s => repr_str s
  | JArr l =>
      "[" ++ (fix go (l : list json) : string :=
               match l with
               | [] => ""
               | [x] => py_repr x
               | x :: l' => py_repr x ++ ", " ++ go l'
               end) l ++ "]"
  | JObj d =>
      "{" ++ (fix go (d : list (string * json)) : string :=
               match d with
               | [] => ""
               | [(k, x)] => repr_str k ++ ": " ++ py_repr x
               | (k, x) :: d' => repr_str k ++ ": " ++ py_repr x ++ ", " ++ go d'
               end) d ++ "}"
  end.

Definition py_str (v : json) : string :=
  match v with JStr s => s | _ => py_repr v end.

(** [for x in v]: lists, strings (characters) and dicts (keys) iterate;
    [None], numbers and booleans raise [TypeError]. *)
Definition py_iter (v : json) : pyres (list json) :=
  match v with
  | JArr l => Ok l
  | JStr s => Ok (map JStr (chars s))
  | JObj d => Ok (map (fun kv => JStr (fst kv)) d)
  | _ => Raise TypeError
  end.

(** [len(v)]. *)
Definition py_len (v : json) : pyres Z :=
  match v with
  | JArr l => Ok (Z.of_nat (List.length l))
  | JStr s => Ok (Z.of_nat (List.length (chars s)))
  | JObj d => Ok (Z.of_nat (List.length d))
  | _ => Raise TypeError
  end.

(** [k in v] for a string key [k]. *)
Definition py_contains (v : json) (k : string) : pyres bool :=
  match v with
  | JObj d => Ok (match dict_get d k with Some _ => true | None => false end)
  | JStr s => Ok (substr_in k s)
  | JArr l => Ok (existsb (fun x => eq_str x k) l)
  | _ => Raise TypeError
  end.

(** [v[k]] for a string key [k]. *)
Definition py_index (v : json) (k : string) : pyres json :=
  match v with
  | JObj d => match dict_get d k with Some x => Ok x | None => Raise KeyError end
  | _ => Raise TypeError
  end.

(** [s.split(c)] for a one-character (ASCII) separator. *)
Fixpoint split_char (c : ascii) (s : string) : list string :=
  match s with
  | EmptyString => [""]
  | String a s' =>
      let r := split_char c s' in
      if Ascii.eqb a c then "" :: r
      else match r with
           | x :: rs => String a x :: rs
           | [] => [String a EmptyString]
           end
  end.

(** *** [int(s)] on a str *)

(** [_PyUnicode_TransformDecimalAndSpaceToASCII]: code points below 127
    are kept, other white space becomes a space, other decimal digits
    become the ASCII digit; anything else makes the literal invalid. *)
Definition ascii_digit_or_space (cp : Z) : option ascii :=
  if (cp <? 127)%Z then Some (ascii_of_N (Z.to_N cp))
  else if existsb (Z.eqb cp) unicode_spaces then Some " "%char
  else match find (fun z => (z <=? cp)%Z && (cp <=? z + 9)%Z) unicode_decimal_zeros with
       | Some z => Some (ascii_of_N (Z.to_N (48 + cp - z)))
       | None => None
       end.

Fixpoint transform_chunks (ks : list (list ascii)) : option (list ascii) :=
  match ks with
  | [] => Some []
  | k :: ks' =>
      match code_point k with
      | Some cp =>
          match ascii_digit_or_space cp, transform_chunks ks' with
          | Some a, Some r => Some (a :: r)
          | _, _ => None
          end
      | None => None
      end
  end.

(** [PyLong_FromString] in base 10: surrounding ASCII white space, an
    optional sign, and decimal digits with single underscores between
    digits, at most [int_max_str_digits] digits. *)
Definition is_space (c : ascii) : bool :=
  match nat_of_ascii c with
  | 32%nat | 9%nat | 10%nat | 11%nat | 12%nat | 13%nat => true
  | _ => false
  end.

Fixpoint lstrip (s : list ascii) : list ascii :=
  match s with c :: s' => if is_space c then lstrip s' else s | [] => [] end.

Definition strip (s : list ascii) : list ascii := rev (lstrip (rev (lstrip s))).

Definition digit_val (c : ascii) : option Z :=
  let n := nat_of_ascii c in
  if (48 <=? n)%nat && (n <=? 57)%nat then Some (Z.of_nat (n - 48)%nat) else None.

(** Digits with underscores; [prev_digit] says the previous character was
    a digit (an underscore must follow and precede a digit). *)
Fixpoint parse_digits (s : list ascii) (acc : Z) (prev_digit : bool) : option Z :=
  match s with
  | [] => if prev_digit then Some acc else None
  | c :: s' =>
      match digit_val c with
      | Some d => parse_digits s' (acc * 10 + d) true
      | None =>
          if Ascii.eqb c "_"%char && prev_digit then parse_digits s' acc false
          else None
      end
  end.

Definition int_max_str_digits : Z := 4300.

Definition count_digits (s : list ascii) : nat :=
  List.length (filter (fun c => match digit_val c with Some _ => true | None => false end) s).

Definition parse_unsigned (s : list ascii) : option Z :=
  match s with
  | c :: _ =>
      match digit_val c with
      | Some _ =>
          match parse_digits s 0 false with
          | Some n => if (Z.of_nat (count_digits s) <=? int_max_str_digits)%Z
                      then Some n else None     (* too many digits: ValueError *)
          | None => None
          end
      | None => None
      end
  | [] => None
  end.

Definition parse_int_ascii (s : list ascii) : option Z :=
  match strip s with
  | "-"%char :: r => option_map Z.opp (parse_unsigned r)
  | "+"%char :: r => parse_unsigned r
  | r => parse_unsigned r
  end.

(** [int(s)]: [None] is the [ValueError]. *)
Definition py_int (s : string) : option Z :=
  match transform_chunks (utf8_chunks (list_ascii_of_string s)) with
  | Some l => parse_int_ascii l
  | None => None
  end.

(** *** Floats *)

Definition prec : Z := 53.
Definition emax : Z := 1024.

Definition fmul (x y : spec_float) : spec_float := SFmul prec emax x y.
Definition fdiv (x y : spec_float) : spec_float := SFdiv prec emax x y.
Definition fadd (x y : spec_float) : spec_float := SFadd prec emax x y.

(** The float nearest to an integer (round half to even). *)
Definition float_of_Z (z : Z) : spec_float := binary_normalize prec emax z 0 false.

(** [float(n)] on an int, done implicitly by [float / int], [int * float]
    and the like: [OverflowError] when [n] rounds beyond the floats. *)
Definition py_float_of_int (z : Z) : pyres spec_float :=
  match float_of_Z z with
  | S754_infinity _ => Raise OverflowError
  | f => Ok f
  end.

Definition float_zero (x : spec_float) : bool :=
  match x with S754_zero _ => true | _ => false end.

Definition sign_bit (x : spec_float) : bool :=
  match x with
  | S754_zero s | S754_infinity s | S754_finite s _ _ => s
  | S754_nan => false
  end.

(** [x / y] on floats. *)
Definition py_fdiv (x y : spec_float) : pyres spec_float :=
  if float_zero y then Raise ZeroDivisionError else Ok (fdiv x y).

(** C's [fmod] (exact). *)
Definition c_fmod (x y : spec_float) : spec_float :=
  match x, y with
  | S754_nan, _ | _, S754_nan => S754_nan
  | S754_infinity _, _ => S754_nan
  | _, S754_zero _ => S754_nan
  | S754_zero s, _ => S754_zero s
  | S754_finite _ _ _, S754_infinity _ => x
  | S754_finite sx mx ex, S754_finite _ my ey =>
      let e := Z.min ex ey in
      binary_normalize prec emax
        (cond_Zopp sx (Z.rem (Z.shiftl (Zpos mx) (ex - e)) (Z.shiftl (Zpos my) (ey - e))))
        e sx
  end.

(** [x % y] on floats ([float_rem]): the remainder takes the sign of
    [y]. *)
Definition py_fmod (x y : spec_float) : pyres spec_float :=
  if float_zero y then Raise ZeroDivisionError
  else
    let m := c_fmod x y in
    match m with
    | S754_zero _ => Ok (S754_zero (sign_bit y))
    | _ => if xorb (SFltb y (S754_zero false)) (SFltb m (S754_zero false))
           then Ok (fadd m y) else Ok m
    end.

(** [int(x)] on a float: truncation toward zero. *)
Definition py_int_of_float (x : spec_float) : pyres Z :=
  match x with
  | S754_zero _ => Ok 0%Z
  | S754_infinity _ => Raise OverflowError
  | S754_nan => Raise ValueError
  | S754_finite s m e =>
      Ok (cond_Zopp s (if (0 <=? e)%Z then Z.shiftl (Zpos m) e else Z.shiftr (Zpos m) (- e)))
  end.

(** The exact value of a finite float. *)
Definition Q_of_finite (s : bool) (m : positive) (e : Z) : Q :=
  if (0 <=? e)%Z then inject_Z (cond_Zopp s (Z.shiftl (Zpos m) e))
  else Qmake (cond_Zopp s (Zpos m)) (Z.to_pos (2 ^ (- e))).

(* ------------------------------------------------------------------ *)
(** ** Record formatting and classification ([format_record], [process_data]) *)

Definition nl : string := String (ascii_of_nat 10) EmptyString.

Definition format_record (session : list (string * json)) : string :=
  let session_id := dict_get_or session "session" JNull in
  let asn4 := dict_get_or session "asn4" (JStr "N/A") in
  let client4 := dict_get_or session "client4" (JStr "N/A") in
  let country := dict_get_or session "country" (JStr "N/A") in
  let privatespoof := dict_get_or session "privatespoof" (JStr "N/A") in
  let routedspoof := dict_get_or session "routedspoof" (JStr "N/A") in
  let timestamp := dict_get_or session "timestamp" (JStr "N/A") in
  "Session: https://spoofer.caida.org/report.php?sessionid=" ++ py_str session_id ++ ", "
  ++ "ASN4 number: " ++ py_str asn4 ++ ", "
  ++ "Client4: " ++ py_str client4 ++ ", "
  ++ "Country: " ++ py_str country ++ ", "
  ++ "Privatespoof: " ++ py_str privatespoof ++ ", "
  ++ "Routedspoof: " ++ py_str routedspoof ++ ", "
  ++ "Timestamp: " ++ py_str timestamp.

(** The loop of [process_data]; a file is the list of strings written to
    it.  The result pairs the two files, as they are when the loop ends or
    raises, with the counts or the exception. *)
Fixpoint process_members (members : list json) (routed_file private_file : list string)
    (routed_count private_count : Z) : (list string * list string) * pyres (Z * Z) :=
  match members with
  | [] => ((routed_file, private_file), Ok (routed_count, private_count))
  | JObj session :: rest =>
      if truthy (dict_get_or session "client4" JNull) then
        let '(rf, rc) :=
          if eq_str (dict_get_or session "routedspoof" JNull) "received"
          then (app routed_file [format_record session ++ nl], (routed_count + 1)%Z)
          else (routed_file, routed_count) in
        let '(pf, pc) :=
          if eq_str (dict_get_or session "privatespoof" JNull) "received"
          then (app private_file [format_record session ++ nl], (private_count + 1)%Z)
          else (private_file, private_count) in
        process_members rest rf pf rc pc
      else process_members rest routed_file private_file routed_count private_count
  | _ :: _ => ((routed_file, private_file), Raise AttributeError)   (* session.get on a non-dict *)
  end.

Definition process_data (data : json) (routed_file private_file : list string)
    : (list string * list string) * pyres (Z * Z) :=
  match (m <- py_get data "hydra:member" (JArr []) ;; py_iter m) with
  | Ok members => process_members members routed_file private_file 0 0
  | Raise e => ((routed_file, private_file), Raise e)
  end.

(* ------------------------------------------------------------------ *)
(** ** Collector state *)

(** The statistics fields of [SpooferCollector] ([start_time] is replaced by
    the elapsed time, an input of the estimator). *)
Record collector := {
  total_records : Z;
  total_routed : Z;
  total_private : Z;
  page : Z;
  pages_processed : Z;
  estimated_total_pages : option Z   (* [None] is Python's [None] *)
}.

Definition init_collector : collector :=
  {| total_records := 0; total_routed := 0; total_private := 0; page := 1;
     pages_processed := 0; estimated_total_pages := None |}.

(** Truthiness of [self.estimated_total_pages]. *)
Definition est_known (e : option Z) : bool :=
  match e with Some n => negb (Z.eqb n 0) | None => false end.

(* ------------------------------------------------------------------ *)
(** ** ETA ([estimate_completion]) *)

(** The ETA before it is turned into text. *)
Inductive eta : Type :=
| Calculating : eta
| Seconds : Z -> eta                   (* "{n} seconds" *)
| Minutes : Z -> eta                   (* "{n} minutes" *)
| HoursMinutes : Z -> Z -> eta         (* "{h} hours, {m} minutes" *)
| Rate : spec_float -> eta.            (* "Processing {r:.2f} pages/second" *)

(** [f"... {1/avg_time_per_page:.2f} ..."]. *)
Definition rate_eta (avg_time_per_page : spec_float) : pyres eta :=
  r <- py_fdiv (float_of_Z 1) avg_time_per_page ;;
  Ok (Rate r).

Definition estimate_completion (c : collector) (elapsed_time : spec_float) : pyres eta :=
  if Z.ltb (pages_processed c) 2 then Ok Calculating
  else
    p <- py_float_of_int (pages_processed c) ;;
    avg_time_per_page <- py_fdiv elapsed_time p ;;
    match estimated_total_pages c with
    | Some e =>
        if negb (Z.eqb e 0) then
          let remaining_pages := (e - pages_processed c)%Z in
          rp <- py_float_of_int remaining_pages ;;
          let estimated_seconds_left := fmul rp avg_time_per_page in
          if SFltb estimated_seconds_left (float_of_Z 60) then
            n <- py_int_of_float estimated_seconds_left ;;
            Ok (Seconds n)
          else if SFltb estimated_seconds_left (float_of_Z 3600) then
            q <- py_fdiv estimated_seconds_left (float_of_Z 60) ;;
            n <- py_int_of_float q ;;
            Ok (Minutes n)
          else
            q <- py_fdiv estimated_seconds_left (float_of_Z 3600) ;;
            hours <- py_int_of_float q ;;
            r <- py_fmod estimated_seconds_left (float_of_Z 3600) ;;
            q' <- py_fdiv r (float_of_Z 60) ;;
            minutes <- py_int_of_float q' ;;
            Ok (HoursMinutes hours minutes)
        else rate_eta avg_time_per_page
    | None => rate_eta avg_time_per_page
    end.

Definition Qltb (x y : Q) : bool := negb (Qle_bool y x).

(** Round half to even to an integer. *)
Definition round_half_even (y : Q) : Z :=
  let f := Qfloor y in
  let r := y - inject_Z f in
  if Qltb r (1 # 2) then f
  else if Qltb (1 # 2) r then (f + 1)%Z
  else if Z.even f then f else (f + 1)%Z.

Definition two_digits (n : Z) : string :=
  if Z.ltb n 10 then "0" ++ Z_str n else Z_str n.

(** Two decimals of a non-negative number, rounded half to even on its
    exact value. *)
Definition fmt2_abs (x : Q) : string :=
  let n := round_half_even (x * 100) in
  Z_str (n / 100) ++ "." ++ two_digits (n mod 100).

(** [f"{x:.2f}"] on a float. *)
Definition fmt2 (x : spec_float) : string :=
  match x with
  | S754_nan => "nan"
  | S754_infinity s => (if s then "-" else "") ++ "inf"
  | S754_zero s => (if s then "-" else "") ++ "0.00"
  | S754_finite s m e => (if s then "-" else "") ++ fmt2_abs (Q_of_finite false m e)
  end.

Definition eta_text (v : eta) : string :=
  match v with
  | Calculating => "Calculating..."
  | Seconds n => Z_str n ++ " seconds"
  | Minutes n => Z_str n ++ " minutes"
  | HoursMinutes h m => Z_str h ++ " hours, " ++ Z_str m ++ " minutes"
  | Rate r => "Processing " ++ fmt2 r ++ " pages/second"
  end.

(* ------------------------------------------------------------------ *)
(** ** Total-page estimation ([update_progress]) *)

(** The [try] block: [page_param] and the [int(...)] conversion, with
    [ValueError] and [IndexError] caught (result [None]: estimate untouched). *)
Definition parse_last_page (last_url : string) : option Z :=
  let page_param := filter (String.prefix "page=") (split_char "&"%char last_url) in
  match page_param with
  | [] => None
  | p :: _ =>
      match split_char "="%char p with
      | _ :: v :: _ => py_int v        (* int(...) failing is a ValueError *)
      | _ => None                      (* IndexError *)
      end
  end.

(** The collector after [self.pages_processed += 1]. *)
Definition counted (c : collector) : collector :=
  {| total_records := total_records c; total_routed := total_routed c;
     total_private := total_private c; page := page c;
     pages_processed := pages_processed c + 1;
     estimated_total_pages := estimated_total_pages c |}.

(** Lines 183-194 once no estimate is known: the page count found, if
    any. *)
Definition last_page_estimate (data : json) : pyres (option Z) :=
  has_view <- py_contains data "hydra:view" ;;
  if has_view then
    view <- py_index data "hydra:view" ;;
    has_last <- py_contains view "hydra:last" ;;
    if has_last then
      last_url <- py_index view "hydra:last" ;;
      match last_url with
      | JStr u => Ok (parse_last_page u)
      | _ => Raise AttributeError        (* last_url.split on a non-string *)
      end
    else Ok None
  else Ok None.

(** The new state (the page is counted first, whatever follows) and the
    console lines printed, or the exception. *)
Definition update_progress (c : collector) (data : json) : collector * pyres (list string) :=
  let c1 := counted c in
  if est_known (estimated_total_pages c) then (c1, Ok [])
  else
    match last_page_estimate data with
    | Ok (Some n) =>
        ({| total_records := total_records c1; total_routed := total_routed c1;
            total_private := total_private c1; page := page c1;
            pages_processed := pages_processed c1;
            estimated_total_pages := Some n |},
         Ok ["Estimated total pages: " ++ Z_str n])
    | Ok None => (c1, Ok [])
    | Raise e => (c1, Raise e)
    end.

(* ------------------------------------------------------------------ *)
(** ** Page fetcher with retry ([fetch_page]) *)

(** Outcome of one [requests.get] + [raise_for_status] + [json()] attempt:
    the parsed payload, or a [RequestException] with its message. *)
Inductive response : Type :=
| RespOk : json -> response
| RespErr : string -> response.

(** Observable effects of the fetcher. *)
Inductive fetch_event : Type :=
| Get : nat -> fetch_event          (* attempt number *)
| Sleep : Z -> fetch_event          (* time.sleep(retry_delay) *)
| Say : string -> fetch_event.      (* print(...) *)

Definition max_retries : nat := 3.

(** The [for attempt in range(max_retries)] loop; [get a] is the outcome of
    attempt [a]. *)
Fixpoint fetch_loop (get : nat -> response) (attempts : list nat) (retry_delay : Z)
    : list fetch_event * option json :=
  match attempts with
  | [] => ([], None)
  | attempt :: rest =>
      match get attempt with
      | RespOk payload => ([Get attempt], Some payload)
      | RespErr e =>
          if Nat.ltb attempt (max_retries - 1) then
            let '(evs, r) := fetch_loop get rest (retry_delay * 2) in
            (Get attempt :: Say ("Error fetching data: " ++ e ++ ". Retrying in "
                                 ++ Z_str retry_delay ++ " seconds...")
                 :: Sleep retry_delay :: evs, r)
          else
            ([Get attempt; Say ("Failed to fetch data after " ++ Z_str (Z.of_nat max_retries)
                                ++ " attempts: " ++ e)], None)
      end
  end.

Definition fetch_page (get : nat -> response) : list fetch_event * option json :=
  fetch_loop get (seq 0 max_retries) 2.

Fixpoint attempts_of (evs : list fetch_event) : list nat :=
  match evs with
  | [] => []
  | Get a :: evs' => a :: attempts_of evs'
  | _ :: evs' => attempts_of evs'
  end.

Fixpoint sleeps_of (evs : list fetch_event) : list Z :=
  match evs with
  | [] => []
  | Sleep d :: evs' => d :: sleeps_of evs'
  | _ :: evs' => sleeps_of evs'
  end.

Fixpoint says_of (evs : list fetch_event) : list string :=
  match evs with
  | [] => []
  | Say m :: evs' => m :: says_of evs'
  | _ :: evs' => says_of evs'
  end.

(* ------------------------------------------------------------------ *)
(** ** Collection loop ([display_progress], [collect_data]) *)

(** The environment of a run: constructor arguments, the clock, and the
    server.  [server k url a] is the outcome of attempt [a] of the [k]-th
    call of [fetch_page] (on [url]); [clock n] is the float
    [time.time() - self.start_time] when the progress line is shown after
    [n] processed pages; [final_elapsed] is the exact value of that float
    when the summary is printed. *)
Record env := {
  api_base : string;
  start_date : string;
  routed_output : string;
  private_output : string;
  now_str : string;
  server : nat -> string -> nat -> response;
  clock : Z -> spec_float;
  final_elapsed : Q
}.

(** The mutable part of a run: collector, the two files (strings written),
    the console (strings printed) and the URLs fetched so far. *)
Record run := {
  r_coll : collector;
  r_routed : list string;
  r_private : list string;
  r_console : list string;
  r_urls : list string
}.

(** Computations on the run that can raise: the run is threaded through,
    and an exception leaves it as it was when the exception was raised. *)
Definition st (A : Type) : Type := run -> run * pyres A.

Definition st_ret {A} (a : A) : st A := fun r => (r, Ok a).

Definition st_bind {A B} (m : st A) (k : A -> st B) : st B :=
  fun r => match m r with
           | (r', Ok a) => k a r'
           | (r', Raise e) => (r', Raise e)
           end.
Notation "x <<- m ;; k" := (st_bind m (fun x => k))
  (at level 61, m at next level, right associativity).

Definition st_lift {A} (m : pyres A) : st A := fun r => (r, m).

Definition set_coll (c : collector) (r : run) : run :=
  {| r_coll := c; r_routed := r_routed r; r_private := r_private r;
     r_console := r_console r; r_urls := r_urls r |}.

Definition print_lines (l : list string) (r : run) : run :=
  {| r_coll := r_coll r; r_routed := r_routed r; r_private := r_private r;
     r_console := app (r_console r) l; r_urls := r_urls r |}.

Definition set_files (rf pf : list string) (r : run) : run :=
  {| r_coll := r_coll r; r_routed := rf; r_private := pf;
     r_console := r_console r; r_urls := r_urls r |}.

(** [self.update_progress(data)]. *)
Definition st_update_progress (data : json) : st unit :=
  fun r => let '(c1, res) := update_progress (r_coll r) data in
           match res with
           | Ok msgs => (print_lines msgs (set_coll c1 r), Ok tt)
           | Raise e => (set_coll c1 r, Raise e)
           end.

(** [self.process_data(data, routed_file, private_file)]. *)
Definition st_process_data (data : json) : st (Z * Z) :=
  fun r => let '((rf, pf), res) := process_data data (r_routed r) (r_private r) in
           (set_files rf pf r, res).

(** The three counter updates of lines 245-247. *)
Definition add_totals (n routed_count private_count : Z) (c : collector) : collector :=
  {| total_records := total_records c + n;
     total_routed := total_routed c + routed_count;
     total_private := total_private c + private_count;
     page := page c; pages_processed := pages_processed c;
     estimated_total_pages := estimated_total_pages c |}.

(** [self.page += 1]. *)
Definition next_page (c : collector) : collector :=
  {| total_records := total_records c; total_routed := total_routed c;
     total_private := total_private c; page := page c + 1;
     pages_processed := pages_processed c;
     estimated_total_pages := estimated_total_pages c |}.

Definition st_modify (f : collector -> collector) : st unit :=
  fun r => (set_coll (f (r_coll r)) r, Ok tt).

Definition esc_clear : string :=
  String (ascii_of_nat 13) (String (ascii_of_nat 27) "[K").

Definition display_progress (E : env) (c : collector) : pyres string :=
  v <- estimate_completion c (clock E (pages_processed c)) ;;
  Ok (esc_clear ++ "Page " ++ Z_str (page c) ++ " | "
      ++ "Total routed spoofers: " ++ Z_str (total_routed c) ++ " | "
      ++ "Total private spoofers: " ++ Z_str (total_private c) ++ " | "
      ++ "ETA: " ++ eta_text v).

Definition st_display_progress (E : env) : st unit :=
  fun r => match display_progress E (r_coll r) with
           | Ok line => (print_lines [line] r, Ok tt)
           | Raise e => (r, Raise e)
           end.

(** The body of [while next_url] after a truthy page [data] came back
    (lines 239-257); the result is the new [next_url]. *)
Definition process_page (E : env) (data : json) : st json :=
  _ <<- st_update_progress data ;;
  counts <<- st_process_data data ;;
  let '(routed_count, private_count) := counts in
  members <<- st_lift (py_get data "hydra:member" (JArr [])) ;;
  n <<- st_lift (py_len members) ;;
  _ <<- st_modify (add_totals n routed_count private_count) ;;
  _ <<- st_display_progress E ;;
  has_next <<- st_lift (has_view <- py_contains data "hydra:view" ;;
                        if has_view then
                          view <- py_index data "hydra:view" ;;
                          py_contains view "hydra:next"
                        else Ok false) ;;
  if has_next then
    nx <<- st_lift (view <- py_index data "hydra:view" ;; py_index view "hydra:next") ;;
    _ <<- st_modify next_page ;;
    st_ret nx
  else st_ret JNull.

Inductive loop_end : Type :=
| LDone : loop_end                 (* the while loop exited *)
| LRaise : exc -> loop_end         (* an exception left the loop body *)
| LFuel : loop_end.                (* the fuel ran out (run not finished) *)

(** The run once [fetch_page] returned for [url] with effects [evs]. *)
Definition after_fetch (r : run) (url : string) (evs : list fetch_event) : run :=
  {| r_coll := r_coll r; r_routed := r_routed r; r_private := r_private r;
     r_console := app (r_console r) (says_of evs);
     r_urls := app (r_urls r) [url] |}.

(** [print("\nFailed to fetch data. Stopping.")]. *)
Definition fail_notice (r : run) : run :=
  {| r_coll := r_coll r; r_routed := r_routed r; r_private := r_private r;
     r_console := app (r_console r) [nl ++ "Failed to fetch data. Stopping."];
     r_urls := r_urls r |}.

(** [while next_url: ...].  When an exception leaves the body, the run is
    the one at the point it was raised. *)
Fixpoint collect_loop (E : env) (fuel : nat) (next_url : json) (r : run) : loop_end * run :=
  if negb (truthy next_url) then (LDone, r)
  else
    match fuel with
    | O => (LFuel, r)
    | S f =>
        let url := api_base E ++ py_str next_url in
        let '(evs, data) := fetch_page (server E (List.length (r_urls r)) url) in
        let r1 := after_fetch r url evs in
        match data with
        | Some v =>
            if truthy v then
              match process_page E v r1 with
              | (r2, Ok nx) => collect_loop E f nx r2
              | (r2, Raise e) => (LRaise e, r2)
              end
            else (LDone, fail_notice r1)      (* if not data: break *)
        | None => (LDone, fail_notice r1)
        end
    end.

(** [str(timedelta(seconds=s))]. *)
Definition timedelta_str (s : Z) : string :=
  let d := (s / 86400)%Z in
  let rem := (s mod 86400)%Z in
  let hms := Z_str (rem / 3600) ++ ":" ++ two_digits ((rem mod 3600) / 60) ++ ":"
             ++ two_digits (rem mod 60) in
  if Z.eqb d 0 then hms
  else Z_str d ++ " day" ++ (if Z.eqb (Z.abs d) 1 then "" else "s") ++ ", " ++ hms.

(** [int(x)] on the exact value of a float: truncation toward zero. *)
Definition py_trunc (x : Q) : Z := Z.quot (Qnum x) (Zpos (Qden x)).

(** The final summary (lines 260-266). *)
Definition summary (E : env) (c : collector) : list string :=
  [nl ++ nl ++ "Data collection complete.";
   "Total records processed: " ++ Z_str (total_records c);
   "IPv4 clients that can spoof routed addresses: " ++ Z_str (total_routed c);
   "IPv4 clients that can spoof private addresses: " ++ Z_str (total_private c);
   "Results saved to: " ++ routed_output E ++ " and " ++ private_output E;
   "Total time: " ++ timedelta_str (py_trunc (final_elapsed E))].

Inductive status : Type :=
| Finished : status                (* collect_data returned normally *)
| Crashed : exc -> status          (* an exception propagated out of it *)
| Running : status.                (* still looping when the fuel ran out *)

Record outcome := {
  o_status : status;
  o_closed : bool;                 (* both output files closed *)
  o_run : run
}.

Definition file_header (E : env) : string :=
  "# IPv4 clients that can spoof - Data from CAIDA Spoofer API" ++ nl
  ++ "# Collection date: " ++ now_str E ++ nl
  ++ "# Data period: " ++ start_date E ++ " to present" ++ nl
  ++ "# Format: Formatted text" ++ nl ++ nl.

(** Leaving the [with] block closes both files on every exit path; the
    summary is printed only when the loop exited normally. *)
Definition finish (E : env) (res : loop_end * run) : outcome :=
  let '(e, r) := res in
  match e with
  | LDone =>
      {| o_status := Finished; o_closed := true;
         o_run := {| r_coll := r_coll r; r_routed := r_routed r; r_private := r_private r;
                     r_console := app (r_console r) (summary E (r_coll r));
                     r_urls := r_urls r |} |}
  | LRaise x => {| o_status := Crashed x; o_closed := true; o_run := r |}
  | LFuel => {| o_status := Running; o_closed := false; o_run := r |}
  end.

Definition initial_url (E : env) : string := "/sessions?timestamp[after]=" ++ start_date E.

(** The run after the opening message and the two file headers. *)
Definition initial_run (E : env) : run :=
  {| r_coll := init_collector;
     r_routed := [file_header E]; r_private := [file_header E];
     r_console := ["Starting data collection from " ++ start_date E ++ " to present..."];
     r_urls := [] |}.

Definition collect_data (E : env) (fuel : nat) : outcome :=
  finish E (collect_loop E fuel (JStr (initial_url E)) (initial_run E)).
(* ------------------------------------------------------------------ *)
(** ** Predicates used in the statements *)

(** The page carries a next-page continuation reference: its
    [hydra:view] object maps [hydra:next] to a non-empty URL string. *)
Definition has_next_ref (data : list (string * json)) : bool :=
  match dict_get data "hydra:view" with
  | Some (JObj view) =>
      match dict_get view "hydra:next" with
      | Some (JStr u) => negb (String.eqb u "")
      | _ => false
      end
  | _ => false
  end.

(** API contract on a page: a [hydra:next] entry of the [hydra:view]
    object is a URL string or null. *)
Definition next_is_url_or_null (data : list (string * json)) : Prop :=
  forall view x, dict_get data "hydra:view" = Some (JObj view) ->
  dict_get view "hydra:next" = Some x -> x = JNull \/ exists u, x = JStr u.

(** The first ['&']-separated segment of a last-page reference that starts
    with ["page="], and the text between its first and second ['=']. *)
Definition page_segment (u : string) : option string :=
  hd_error (filter (String.prefix "page=") (split_char "&"%char u)).

Definition page_value_field (p : string) : option string :=
  nth_error (split_char "="%char p) 1.

(** A last-page reference the estimation cannot use: no ["page="] segment,
    or its value field is not an integer literal for [int()]. *)
Definition last_ref_malformed (u : string) : Prop :=
  match page_segment u with
  | None => True
  | Some p => match page_value_field p with
              | None => True
              | Some v => py_int v = None
              end
  end.

(** The records of a member list when every member is a dict. *)
Fixpoint objs_of (ms : list json) : option (list (list (string * json))) :=
  match ms with
  | [] => Some []
  | JObj s :: ms' => option_map (cons s) (objs_of ms')
  | _ :: _ => None
  end.

(** The two tests of [process_data] on one record. *)
Definition routed_sel (s : list (string * json)) : bool :=
  truthy (dict_get_or s "client4" JNull) &&
  eq_str (dict_get_or s "routedspoof" JNull) "received".

Definition private_sel (s : list (string * json)) : bool :=
  truthy (dict_get_or s "client4" JNull) &&
  eq_str (dict_get_or s "privatespoof" JNull) "received".

Definition record_line (s : list (string * json)) : string := format_record s ++ nl.

(** A string without a newline character. *)
Definition no_nl (s : string) : bool :=
  forallb (fun ch => negb (Ascii.eqb ch (ascii_of_nat 10))) (list_ascii_of_string s).

(** A field value [format_record] renders on one line: a scalar, and for
    a string one without a newline. *)
Definition scalar_one_line (v : json) : bool :=
  match v with
  | JNull | JBool _ | JNum _ => true
  | JStr s => no_nl s
  | _ => false
  end.

Definition field_one_line (s : list (string * json)) (k : string) : bool :=
  match dict_get s k with None => true | Some v => scalar_one_line v end.

(** Run invariant of the collection loop: each file holds its header and
    one entry per counted match, and one URL was fetched per processed page. *)
Definition run_inv (r : run) : Prop :=
  Z.of_nat (List.length (r_routed r)) = (1 + total_routed (r_coll r))%Z /\
  Z.of_nat (List.length (r_private r)) = (1 + total_private (r_coll r))%Z /\
  Z.of_nat (List.length (r_urls r)) = pages_processed (r_coll r).

(* ------------------------------------------------------------------ *)
(** ** Sample inputs *)

(** Last-page references as the API could send them. *)
Definition demo_last_no_page : string :=
  "https://api.spoofer.caida.org/sessions?timestamp[after]=2024-01-01&pagesize=50".

Definition demo_last_two_equals : string :=
  "https://api.spoofer.caida.org/sessions?timestamp[after]=2024-01-01&page=5=6".

Definition demo_base : string := "https://api.spoofer.caida.org/sessions".

Definition demo_query : string := "12&timestamp[after]=2024-01-01".

(** A two-page run: the first page has a next reference, every later
    fetch fails. *)
Definition demo_page1 : list (string * json) :=
  [("hydra:member", JArr [JObj [("session", JNum 1); ("client4", JStr "192.0.2.1");
                                 ("routedspoof", JStr "received")]]);
   ("hydra:view", JObj [("hydra:next", JStr "/sessions?page=2")])].

Definition demo_env : env :=
  {| api_base := "https://api.spoofer.caida.org"; start_date := "2024-01-01";
     routed_output := "ipv4_routed_spoofers.txt";
     private_output := "ipv4_private_spoofers.txt";
     now_str := "2025-01-01 00:00:00";
     server := fun k _ _ => if Nat.eqb k 0 then RespOk (JObj demo_page1)
                            else RespErr "503 Server Error";
     clock := fun n => float_of_Z (5 * n); final_elapsed := 12 # 1 |}.

Definition demo_url1 : string := api_base demo_env ++ py_str (JStr (initial_url demo_env)).

Definition demo_evs1 : list fetch_event :=
  Eval vm_compute in fst (fetch_page (server demo_env 0 demo_url1)).

Definition demo_step1 : run * json :=
  Eval vm_compute in
    match process_page demo_env (JObj demo_page1)
                       (after_fetch (initial_run demo_env) demo_url1 demo_evs1) with
    | (r, Ok nx) => (r, nx)
    | (r, Raise _) => (r, JNull)
    end.

Definition demo_url2 : string := api_base demo_env ++ py_str (snd demo_step1).

Definition demo_evs2 : list fetch_event :=
  Eval vm_compute in fst (fetch_page (server demo_env 1 demo_url2)).

(* ------------------------------------------------------------------ *)

Definition demo_last_page_url : string :=
  "https://api.spoofer.caida.org/sessions?timestamp[after]=2024-01-01&page=1234".

Definition demo_view_page : list (string * json) :=
  [("hydra:view", JObj [("hydra:last", JStr demo_last_page_url)])].

Definition demo_record : list (string * json) :=
  [("session", JNum 981234); ("asn4", JNum 64500); ("client4", JStr "192.0.2.1");
   ("country", JStr "nzl"); ("privatespoof", JStr "blocked");
   ("routedspoof", JStr "received"); ("timestamp", JStr "2024-01-02T03:04:05Z")].

(** A server whose every payload is a non-empty list. *)
Definition demo_env_list : env :=
  {| api_base := "https://api.spoofer.caida.org"; start_date := "2024-01-01";
     routed_output := "ipv4_routed_spoofers.txt";
     private_output := "ipv4_private_spoofers.txt";
     now_str := "2025-01-01 00:00:00";
     server := fun _ _ _ => RespOk (JArr [JNum 1]);
     clock := fun n => float_of_Z (5 * n); final_elapsed := 1 # 1 |}.

(** A collector that has seen two pages and knows no total. *)
Definition demo_two_pages : collector :=
  {| total_records := 100; total_routed := 4; total_private := 2; page := 3;
     pages_processed := 2; estimated_total_pages := None |}.

(** A total-page estimate beyond the range of floats. *)
Definition demo_huge_total : collector :=
  {| total_records := 100; total_routed := 4; total_private := 2; page := 3;
     pages_processed := 2; estimated_total_pages := Some (10 ^ 400)%Z |}.

(* ------------------------------------------------------------------ *)
(** ** Auxiliary lemmas *)

Lemma eq_str_received (s : list (string * json)) (k : string) :
  eq_str (dict_get_or s k JNull) "received" = true <->
  dict_get s k = Some (JStr "received").
Proof.
  unfold dict_get_or; destruct (dict_get s k) as [[| | | s0 | |]|]; simpl;
    split; intro H; try discriminate.
  - apply String.eqb_eq in H; subst; reflexivity.
  - inversion H; subst; apply String.eqb_refl.
Qed.

Lemma eq_str_received_false (s : list (string * json)) (k : string) :
  eq_str (dict_get_or s k JNull) "received" = false ->
  dict_get s k <> Some (JStr "received").
Proof.
  intros H E; apply eq_str_received in E; congruence.
Qed.

Lemma process_members_prefix : forall ms rf pf rc pc,
  (exists l, fst (fst (process_members ms rf pf rc pc)) = app rf l) /\
  (exists l, snd (fst (process_members ms rf pf rc pc)) = app pf l).
Proof.
  induction ms as [|m ms IH]; intros rf pf rc pc.
  - split; exists []; symmetry; apply app_nil_r.
  - destruct m; cbn [process_members fst snd];
      try (split; exists []; symmetry; apply app_nil_r).
    destruct (truthy (dict_get_or l "client4" JNull)); [|apply IH].
    destruct (eq_str (dict_get_or l "routedspoof" JNull) "received");
    destruct (eq_str (dict_get_or l "privatespoof" JNull) "received");
    match goal with |- context [process_members ms ?a ?b ?c ?d] =>
      destruct (IH a b c d) as [[l1 E1] [l2 E2]] end;
    split; eexists; (rewrite E1 || rewrite E2); rewrite <- ?app_assoc; reflexivity.
Qed.

Lemma process_data_prefix : forall v rf pf,
  (exists l, fst (fst (process_data v rf pf)) = app rf l) /\
  (exists l, snd (fst (process_data v rf pf)) = app pf l).
Proof.
  intros v rf pf; unfold process_data.
  destruct (m <- py_get v "hydra:member" (JArr []) ;; py_iter m);
    [apply process_members_prefix | split; exists []; symmetry; apply app_nil_r].
Qed.

(** The steps of the loop body, one by one. *)
Lemma st_update_progress_run : forall v r r' x,
  st_update_progress v r = (r', x) ->
  r_coll r' = fst (update_progress (r_coll r) v) /\
  r_routed r' = r_routed r /\ r_private r' = r_private r /\ r_urls r' = r_urls r /\
  match x with
  | Ok _ => exists msgs, snd (update_progress (r_coll r) v) = Ok msgs
  | Raise e => snd (update_progress (r_coll r) v) = Raise e
  end.
Proof.
  intros v r r' x H; unfold st_update_progress in H.
  destruct (update_progress (r_coll r) v) as [c1 [msgs|e]];
    inversion H; subst; repeat split; simpl; eauto.
Qed.

Lemma update_progress_coll : forall c v,
  total_records (fst (update_progress c v)) = total_records c /\
  total_routed (fst (update_progress c v)) = total_routed c /\
  total_private (fst (update_progress c v)) = total_private c /\
  page (fst (update_progress c v)) = page c /\
  pages_processed (fst (update_progress c v)) = (pages_processed c + 1)%Z.
Proof.
  intros c v; unfold update_progress.
  destruct (est_known (estimated_total_pages c)); [cbn; repeat split|].
  destruct (last_page_estimate v) as [[n|]|e]; cbn; repeat split.
Qed.

Lemma st_process_data_run : forall v r r' x,
  st_process_data v r = (r', x) ->
  r_coll r' = r_coll r /\ r_console r' = r_console r /\ r_urls r' = r_urls r /\
  r_routed r' = fst (fst (process_data v (r_routed r) (r_private r))) /\
  r_private r' = snd (fst (process_data v (r_routed r) (r_private r))) /\
  x = snd (process_data v (r_routed r) (r_private r)).
Proof.
  intros v r r' x H; unfold st_process_data in H.
  destruct (process_data v (r_routed r) (r_private r)) as [[rf pf] res].
  inversion H; subst; repeat split.
Qed.

Lemma st_display_progress_run : forall E r r' x,
  st_display_progress E r = (r', x) ->
  r_coll r' = r_coll r /\ r_routed r' = r_routed r /\ r_private r' = r_private r /\
  r_urls r' = r_urls r.
Proof.
  intros E r r' x H; unfold st_display_progress in H.
  destruct (display_progress E (r_coll r)); inversion H; subst; repeat split.
Qed.

(** Symbolic execution of [process_page] on a hypothesis
    [process_page E v r = (r2, res)]: one goal per exit point. *)
Ltac page_cases H :=
  revert H;
  cbv [process_page st_bind st_lift st_ret st_modify];
  destruct (st_update_progress _ _) as [?r1 [[]|?e]] eqn:?Hup;
  [ destruct (st_process_data _ _) as [?r2 [[?rc ?pc]|?e]] eqn:?Hpd;
    [ cbv beta iota;
      destruct (py_get _ "hydra:member" _) as [?m|?e] eqn:?Hget;
      [ destruct (py_len _) as [?n|?e] eqn:?Hlen;
        [ destruct (st_display_progress _ _) as [?r4 [[]|?e]] eqn:?Hdp;
          [ destruct (bind (py_contains _ "hydra:view") _) as [[]|?e] eqn:?Hhn;
            [ destruct (bind (py_index _ "hydra:view") (fun view => py_index view "hydra:next")) as [?nx|?e] eqn:?Hnx
            | | ]
          | ]
        | ]
      | ]
    | ]
  | ];
  intro H; inversion H; subst; clear H.

Ltac run_facts :=
  repeat match goal with
  | H : st_update_progress _ _ = _ |- _ =>
      apply st_update_progress_run in H; destruct H as [?U1 [?U2 [?U3 [?U4 U5]]]];
      cbn iota in U5; revert U5
  | H : st_process_data _ _ = _ |- _ =>
      apply st_process_data_run in H; destruct H as [?P1 [?P2 [?P3 [?P4 [?P5 P6]]]]];
      revert P6
  | H : st_display_progress _ _ = _ |- _ =>
      apply st_display_progress_run in H; destruct H as [?D1 [?D2 [?D3 ?D4]]]
  end;
  cbn [r_coll r_routed r_private r_urls r_console set_coll print_lines set_files
       add_totals next_page pages_processed total_routed total_private total_records
       page estimated_total_pages] in *.

Ltac chase :=
  repeat (match goal with
          | H : r_coll ?x = _ |- context [r_coll ?x] => rewrite H
          | H : r_routed ?x = _ |- context [r_routed ?x] => rewrite H
          | H : r_private ?x = _ |- context [r_private ?x] => rewrite H
          | H : r_urls ?x = _ |- context [r_urls ?x] => rewrite H
          | H : r_console ?x = _ |- context [r_console ?x] => rewrite H
          end;
          cbn [r_coll r_routed r_private r_urls r_console set_coll print_lines set_files
               add_totals next_page pages_processed total_routed total_private
               total_records page estimated_total_pages]).

(** What every run of the loop body does, however it ends: no URL is
    fetched, the files only grow, and the page is counted as processed. *)
Lemma process_page_frame : forall E v r r2 res,
  process_page E v r = (r2, res) ->
  r_urls r2 = r_urls r /\
  (exists l, r_routed r2 = app (r_routed r) l) /\
  (exists l, r_private r2 = app (r_private r) l) /\
  pages_processed (r_coll r2) = (pages_processed (r_coll r) + 1)%Z.
Proof.
  intros E v r r2 res H.
  destruct (process_data_prefix v (r_routed r) (r_private r)) as [[l1 L1] [l2 L2]].
  pose proof (update_progress_coll (r_coll r) v) as [_ [_ [_ [_ Pp]]]].
  page_cases H; run_facts; chase; intros; rewrite ?L1, ?L2;
    repeat split; try assumption;
    first [eexists; reflexivity | exists []; rewrite app_nil_r; reflexivity].
Qed.

(** Equality of two results of [process_members], part by part. *)
Ltac ok4 :=
  match goal with
  | |- ((?a, ?b), Ok (?c, ?d)) = ((?a', ?b'), Ok (?c', ?d')) =>
      let E1 := fresh in let E2 := fresh in let E3 := fresh in let E4 := fresh in
      assert (E1 : a = a') by (rewrite <- ?app_assoc; reflexivity);
      assert (E2 : b = b') by (rewrite <- ?app_assoc; reflexivity);
      assert (E3 : c = c') by lia; assert (E4 : d = d') by lia;
      congruence
  end.

Lemma process_members_spec : forall ms ss rf pf rc pc,
  objs_of ms = Some ss ->
  process_members ms rf pf rc pc =
  ((app rf (map record_line (filter routed_sel ss)),
    app pf (map record_line (filter private_sel ss))),
   Ok ((rc + Z.of_nat (List.length (filter routed_sel ss)))%Z,
       (pc + Z.of_nat (List.length (filter private_sel ss)))%Z)).
Proof.
  induction ms as [|m ms IH]; intros ss rf pf rc pc H.
  - inversion H; subst; simpl; rewrite !app_nil_r, !Z.add_0_r; reflexivity.
  - destruct m; simpl in H; try discriminate.
    destruct (objs_of ms) as [ss'|] eqn:E; simpl in H; [|discriminate].
    inversion H; subst; clear H.
    cbn [process_members filter].
    destruct (truthy (dict_get_or l "client4" JNull)) eqn:Ht.
    + destruct (eq_str (dict_get_or l "routedspoof" JNull) "received") eqn:Er;
      destruct (eq_str (dict_get_or l "privatespoof" JNull) "received") eqn:Ep;
      assert (Rs : routed_sel l = eq_str (dict_get_or l "routedspoof" JNull) "received")
        by (unfold routed_sel; rewrite Ht; reflexivity);
      assert (Ps : private_sel l = eq_str (dict_get_or l "privatespoof" JNull) "received")
        by (unfold private_sel; rewrite Ht; reflexivity);
      rewrite Er in Rs; rewrite Ep in Ps; rewrite Rs, Ps;
      rewrite (IH ss' _ _ _ _ eq_refl); cbn [map List.length]; ok4.
    + assert (Rs : routed_sel l = false) by (unfold routed_sel; rewrite Ht; reflexivity).
      assert (Ps : private_sel l = false) by (unfold private_sel; rewrite Ht; reflexivity).
      rewrite Rs, Ps, (IH ss' _ _ _ _ eq_refl); reflexivity.
Qed.

Lemma process_members_non_dict : forall ms rf pf rc pc,
  objs_of ms = None -> snd (process_members ms rf pf rc pc) = Raise AttributeError.
Proof.
  induction ms as [|m ms IH]; intros rf pf rc pc H; [discriminate|].
  destruct m; cbn [process_members]; try reflexivity.
  simpl in H; destruct (objs_of ms) eqn:E; simpl in H; [discriminate|].
  destruct (truthy (dict_get_or l "client4" JNull)); [|apply IH; assumption].
  destruct (eq_str (dict_get_or l "routedspoof" JNull) "received");
  destruct (eq_str (dict_get_or l "privatespoof" JNull) "received"); apply IH; assumption.
Qed.

Lemma objs_of_length (ms : list json) (ss : list (list (string * json))) :
  objs_of ms = Some ss -> List.length ss = List.length ms.
Proof.
  revert ss; induction ms as [|m ms IH]; intros ss H; cbn [objs_of] in H.
  - inversion H; reflexivity.
  - destruct m; try discriminate.
    destruct (objs_of ms) as [ss'|] eqn:E; cbn [option_map] in H; [|discriminate].
    inversion H; subst; cbn [List.length]; f_equal; apply IH; reflexivity.
Qed.

Lemma py_len_iter (m : json) (ms : list json) :
  py_iter m = Ok ms -> py_len m = Ok (Z.of_nat (List.length ms)).
Proof.
  destruct m; cbn [py_iter py_len]; intro H; inversion H; subst;
    rewrite ?length_map; reflexivity.
Qed.

(** A successful [process_data] ran on a dict whose members are dicts. *)
Lemma process_data_ok_inv : forall v rf pf rc pc,
  snd (process_data v rf pf) = Ok (rc, pc) ->
  exists d ms ss, v = JObj d /\
  py_iter (dict_get_or d "hydra:member" (JArr [])) = Ok ms /\ objs_of ms = Some ss /\
  process_data v rf pf =
  ((app rf (map record_line (filter routed_sel ss)),
    app pf (map record_line (filter private_sel ss))),
   Ok (Z.of_nat (List.length (filter routed_sel ss)),
       Z.of_nat (List.length (filter private_sel ss)))).
Proof.
  intros v rf pf rc pc H. unfold process_data in *.
  destruct v as [| | | | | d]; cbn [py_get bind] in *; try discriminate.
  destruct (py_iter (dict_get_or d "hydra:member" (JArr []))) as [ms|e] eqn:Hi;
    [|discriminate].
  destruct (objs_of ms) as [ss|] eqn:Ho;
    [|rewrite (process_members_non_dict ms rf pf 0 0 Ho) in H; discriminate].
  exists d, ms, ss. repeat split; try assumption.
  exact (process_members_spec ms ss rf pf 0 0 Ho).
Qed.

Lemma process_data_non_dict : forall v rf pf,
  (forall d, v <> JObj d) -> process_data v rf pf = ((rf, pf), Raise AttributeError).
Proof.
  intros v rf pf H; destruct v; try reflexivity. exfalso; exact (H l eq_refl).
Qed.

Lemma update_progress_non_dict : forall c v,
  (forall d, v <> JObj d) ->
  fst (update_progress c v) = counted c /\
  (snd (update_progress c v) = Ok [] \/ snd (update_progress c v) = Raise TypeError).
Proof.
  intros c v Hv. unfold update_progress.
  destruct (est_known (estimated_total_pages c)); [split; [|left]; reflexivity|].
  unfold last_page_estimate.
  destruct v as [| | | s | l | d]; cbn [py_contains bind];
    try (split; [|right]; reflexivity).
  - destruct (substr_in "hydra:view" s); cbn [py_index bind]; split; auto.
  - destruct (existsb (fun x => eq_str x "hydra:view") l); cbn [py_index bind]; split; auto.
  - exfalso; exact (Hv d eq_refl).
Qed.

(** The counters and files after one run of the loop body: the totals
    grow by what [process_data] counted (the records by the number of
    members), and each file grows by at least its count, by exactly its
    count unless [process_data] raised. *)
Lemma process_page_counts : forall E v r r2 res,
  process_page E v r = (r2, res) ->
  exists drec dr dp,
  total_records (r_coll r2) = (total_records (r_coll r) + drec)%Z /\
  total_routed (r_coll r2) = (total_routed (r_coll r) + dr)%Z /\
  total_private (r_coll r2) = (total_private (r_coll r) + dp)%Z /\
  (0 <= dr <= drec)%Z /\ (0 <= dp <= drec)%Z /\
  (Z.of_nat (List.length (r_routed r)) + dr <= Z.of_nat (List.length (r_routed r2)))%Z /\
  (Z.of_nat (List.length (r_private r)) + dp <= Z.of_nat (List.length (r_private r2)))%Z /\
  (forall x, res = Ok x ->
     Z.of_nat (List.length (r_routed r2)) = (Z.of_nat (List.length (r_routed r)) + dr)%Z /\
     Z.of_nat (List.length (r_private r2)) = (Z.of_nat (List.length (r_private r)) + dp)%Z).
Proof.
  intros E v r r2 res H.
  destruct (process_data_prefix v (r_routed r) (r_private r)) as [[l1 L1] [l2 L2]].
  pose proof (update_progress_coll (r_coll r) v) as [C1 [C2 [C3 _]]].
  page_cases H; run_facts; chase; intros;
    try (exists 0%Z, 0%Z, 0%Z; rewrite ?L1, ?L2, ?length_app, ?C1, ?C2, ?C3;
         repeat split; try lia;
         match goal with Hx : Raise _ = Ok _ |- _ => discriminate Hx end);
    match goal with
    | Hp : Ok (?rc, ?pc) = snd (process_data _ _ _) |- _ =>
        symmetry in Hp;
        destruct (process_data_ok_inv _ _ _ _ _ Hp) as [d [ms [ss [-> [Hi [Ho Hd]]]]]];
        rewrite Hd in Hp; cbn [snd] in Hp; inversion Hp; subst;
        cbn [py_get] in Hget; inversion Hget; subst;
        rewrite (py_len_iter _ _ Hi) in Hlen; inversion Hlen; subst;
        exists (Z.of_nat (List.length ms)),
               (Z.of_nat (List.length (filter routed_sel ss))),
               (Z.of_nat (List.length (filter private_sel ss)));
        rewrite Hd; cbn [fst snd]; rewrite ?length_app, ?length_map, ?C1, ?C2, ?C3;
        pose proof (objs_of_length ms ss Ho);
        pose proof (filter_length_le routed_sel ss);
        pose proof (filter_length_le private_sel ss);
        repeat split; try lia
    end.
Qed.

(** The page counter and the next URL after a successful run of the loop
    body on a dict page. *)
Lemma process_page_next : forall E d r r2 nx,
  process_page E (JObj d) r = (r2, Ok nx) ->
  (exists view, dict_get d "hydra:view" = Some view /\
     py_contains view "hydra:next" = Ok true /\ py_index view "hydra:next" = Ok nx /\
     page (r_coll r2) = (page (r_coll r) + 1)%Z) \/
  ((forall view, dict_get d "hydra:view" = Some view -> py_contains view "hydra:next" = Ok false) /\
   nx = JNull /\ page (r_coll r2) = page (r_coll r)).
Proof.
  intros E d r r2 nx H.
  pose proof (update_progress_coll (r_coll r) (JObj d)) as [_ [_ [_ [Pg _]]]].
  page_cases H; run_facts; chase; intros;
    cbn [bind py_contains py_index] in Hhn; try (cbn [bind py_index] in Hnx);
    destruct (dict_get d "hydra:view") as [view|] eqn:Hv; cbn [bind] in Hhn;
    try discriminate.
  - left; exists view; repeat split; try assumption; lia.
  - right; repeat split; [|lia]. intros view' E'; inversion E'; subst; exact Hhn.
  - right; repeat split; [|lia]. intros view' E'; discriminate.
Qed.

Lemma process_page_next_value : forall E d r r2 nx,
  process_page E (JObj d) r = (r2, Ok nx) ->
  nx = match dict_get d "hydra:view" with
       | Some (JObj view) => dict_get_or view "hydra:next" JNull
       | _ => JNull
       end.
Proof.
  intros E d r r2 nx H.
  destruct (process_page_next E d r r2 nx H) as [[view [Hv [Hc [Hi _]]]] | [Hc [-> _]]].
  - rewrite Hv. destruct view; cbn [py_index] in Hi; try discriminate.
    unfold dict_get_or. destruct (dict_get l "hydra:next"); congruence.
  - destruct (dict_get d "hydra:view") as [[| | | | | vo]|] eqn:Hv; try reflexivity.
    specialize (Hc _ eq_refl); cbn [py_contains] in Hc.
    unfold dict_get_or; destruct (dict_get vo "hydra:next"); [discriminate|reflexivity].
Qed.

Lemma collect_loop_extends : forall E fuel nx r e r',
  collect_loop E fuel nx r = (e, r') ->
  (exists l, r_urls r' = app (r_urls r) l) /\
  (exists l, r_routed r' = app (r_routed r) l) /\
  (exists l, r_private r' = app (r_private r) l).
Proof.
  induction fuel as [|f IH]; intros nx r e r' H; cbn [collect_loop] in H;
    destruct (truthy nx); cbn [negb] in H;
    try (inversion H; subst; repeat split; exists []; symmetry; apply app_nil_r).
  destruct (fetch_page _) as [evs data].
  destruct data as [v|]; [destruct (truthy v)|].
  - destruct (process_page E v (after_fetch r (api_base E ++ py_str nx) evs))
      as [r2 [nx'|x]] eqn:Hp;
      apply process_page_frame in Hp; destruct Hp as [U [[l1 R] [[l2 P] _]]];
      cbn [after_fetch r_urls r_routed r_private] in U, R, P.
    + apply IH in H. destruct H as [[k1 U'] [[k2 R'] [k3 P']]].
      repeat split; eexists; [rewrite U', U | rewrite R', R | rewrite P', P];
        rewrite <- app_assoc; reflexivity.
    + inversion H; subst; repeat split; eexists; [rewrite U | rewrite R | rewrite P];
        reflexivity.
  - inversion H; subst; simpl; repeat split; eexists;
      (reflexivity || (symmetry; apply app_nil_r)).
  - inversion H; subst; simpl; repeat split; eexists;
      (reflexivity || (symmetry; apply app_nil_r)).
Qed.



Lemma malformed_parse_none (u : string) :
  last_ref_malformed u -> parse_last_page u = None.
Proof.
  unfold last_ref_malformed, page_segment, page_value_field, parse_last_page.
  destruct (filter (String.prefix "page=") (split_char "&"%char u)) as [|p ps]; simpl;
    [reflexivity|].
  destruct (split_char "="%char p) as [|a [|v rest]]; simpl; auto.
Qed.

(** [update_progress] on a page whose [hydra:last] string yields no page
    count only counts the page. *)
Lemma update_progress_unparsed :
  forall c d view u,
  estimated_total_pages c = None ->
  dict_get d "hydra:view" = Some (JObj view) ->
  dict_get view "hydra:last" = Some (JStr u) ->
  parse_last_page u = None ->
  update_progress c (JObj d) = (counted c, Ok []).
Proof.
  intros c d view u He Hv Hl Hp.
  unfold update_progress, last_page_estimate; rewrite He; cbn [est_known].
  cbn [py_contains py_index bind]; rewrite Hv; cbn [bind py_contains py_index].
  rewrite Hl; cbn [bind]. rewrite Hp. reflexivity.
Qed.

(** Without an estimate, from the second page on, the ETA is the
    throughput message once the average time per page is a non-zero
    float. *)
Lemma estimate_rate_without_total :
  forall c elapsed fp avg,
  estimated_total_pages c = None -> (2 <= pages_processed c)%Z ->
  py_float_of_int (pages_processed c) = Ok fp -> py_fdiv elapsed fp = Ok avg ->
  float_zero avg = false ->
  estimate_completion c elapsed = Ok (Rate (fdiv (float_of_Z 1) avg)).
Proof.
  intros c elapsed fp avg He Hp Hfp Havg Hz.
  assert (Hl : Z.ltb (pages_processed c) 2 = false) by (apply Z.ltb_ge; lia).
  unfold estimate_completion; rewrite Hl, Hfp; cbn [bind]; rewrite Havg; cbn [bind].
  rewrite He. unfold rate_eta, py_fdiv at 1; rewrite Hz; reflexivity.
Qed.

Lemma split_char_nonempty (ch : ascii) (s : string) : split_char ch s <> [].
Proof.
  destruct s as [|a s]; simpl; [discriminate|].
  destruct (Ascii.eqb a ch); [discriminate|].
  destruct (split_char ch s); discriminate.
Qed.

Lemma split_char_app_free (ch : ascii) (a b : string) :
  forallb (fun x => negb (Ascii.eqb x ch)) (list_ascii_of_string a) = true ->
  split_char ch (a ++ b) =
  match split_char ch b with x :: rs => (a ++ x) :: rs | [] => [a] end.
Proof.
  induction a as [|y a IH]; simpl; intro H.
  - destruct (split_char ch b) eqn:E; [exfalso; exact (split_char_nonempty ch b E)|].
    reflexivity.
  - apply andb_true_iff in H; destruct H as [Hy Ha].
    apply negb_true_iff in Hy; rewrite Hy, (IH Ha).
    destruct (split_char ch b); reflexivity.
Qed.

Lemma filter_all_false {A} (f : A -> bool) (l : list A) :
  forallb (fun x => negb (f x)) l = true -> filter f l = [].
Proof.
  induction l as [|x l IH]; simpl; [reflexivity|].
  intro H; apply andb_true_iff in H; destruct H as [Hx Hl].
  apply negb_true_iff in Hx; rewrite Hx; exact (IH Hl).
Qed.

Lemma prefix_app_long (s1 s2 t : string) :
  (String.length s1 <= String.length s2)%nat ->
  String.prefix s1 (s2 ++ t) = String.prefix s1 s2.
Proof.
  revert s2; induction s1 as [|a s1 IH]; intros s2 H; [destruct s2, t; reflexivity|].
  destruct s2 as [|b s2]; simpl in H; [lia|].
  cbn [String.prefix String.append].
  destruct (ascii_dec a b); [apply IH; lia | reflexivity].
Qed.

Lemma prefix_page_before_qmark (base t : string) :
  String.prefix "page=" base = false ->
  String.prefix "page=" (base ++ String "?" t) = false.
Proof.
  intro H.
  destruct (Nat.le_gt_cases 5 (String.length base)) as [Hl|Hl].
  - rewrite prefix_app_long; assumption.
  - destruct base as [|a1 [|a2 [|a3 [|a4 [|a5 b]]]]]; simpl in Hl; try lia;
      cbn [String.prefix String.append];
      repeat (destruct (ascii_dec _ _) as [E|E]; [first [discriminate E | subst] | reflexivity]).
Qed.


(* ------------------------------------------------------------------ *)
(** ** Classifier *)

(** C1: for an eligible record (non-empty client4 string), the classifier
    appends one line to the routed file exactly when routedspoof is the
    string "received", one line to the private file exactly when
    privatespoof is "received", counts each line once, and when both lines
    are written they are the same text. *)
Theorem classify_eligible_routed_private :
  forall session rest rf pf rc pc c,
  dict_get session "client4" = Some (JStr c) -> c <> "" ->
  exists rl pl,
    process_members (JObj session :: rest) rf pf rc pc =
    process_members rest (app rf rl) (app pf pl)
                    (rc + Z.of_nat (List.length rl))%Z (pc + Z.of_nat (List.length pl))%Z /\
    ((rl = [format_record session ++ nl] /\
      dict_get session "routedspoof" = Some (JStr "received")) \/
     (rl = [] /\ dict_get session "routedspoof" <> Some (JStr "received"))) /\
    ((pl = [format_record session ++ nl] /\
      dict_get session "privatespoof" = Some (JStr "received")) \/
     (pl = [] /\ dict_get session "privatespoof" <> Some (JStr "received"))) /\
    (rl <> [] -> pl <> [] -> rl = pl).
Proof.
  intros session rest rf pf rc pc c Hc Hne.
  assert (Ht : truthy (dict_get_or session "client4" JNull) = true).
  { unfold dict_get_or; rewrite Hc; simpl.
    destruct (String.eqb_spec c ""); [contradiction | reflexivity]. }
  cbn [process_members]; rewrite Ht.
  destruct (eq_str (dict_get_or session "routedspoof" JNull) "received") eqn:Er;
  destruct (eq_str (dict_get_or session "privatespoof" JNull) "received") eqn:Ep.
  - exists [format_record session ++ nl], [format_record session ++ nl].
    split; [reflexivity|]. split; [|split].
    + left; split; [reflexivity | apply eq_str_received; assumption].
    + left; split; [reflexivity | apply eq_str_received; assumption].
    + intros _ _; reflexivity.
  - exists [format_record session ++ nl], [].
    rewrite app_nil_r, Z.add_0_r. split; [reflexivity|]. split; [|split].
    + left; split; [reflexivity | apply eq_str_received; assumption].
    + right; split; [reflexivity | apply eq_str_received_false; assumption].
    + intros _ H; contradiction.
  - exists [], [format_record session ++ nl].
    rewrite app_nil_r, Z.add_0_r. split; [reflexivity|]. split; [|split].
    + right; split; [reflexivity | apply eq_str_received_false; assumption].
    + left; split; [reflexivity | apply eq_str_received; assumption].
    + intros H; contradiction.
  - exists [], [].
    rewrite !app_nil_r, !Z.add_0_r. split; [reflexivity|]. split; [|split].
    + right; split; [reflexivity | apply eq_str_received_false; assumption].
    + right; split; [reflexivity | apply eq_str_received_false; assumption].
    + intros H; contradiction.
Qed.

Lemma classify_eligible_routed_private_witness :
  dict_get [("client4", JStr "192.0.2.1"); ("routedspoof", JStr "received");
            ("privatespoof", JStr "received")] "client4" = Some (JStr "192.0.2.1") /\
  "192.0.2.1" <> "" /\
  exists rl pl,
    process_members [JObj [("client4", JStr "192.0.2.1"); ("routedspoof", JStr "received");
                           ("privatespoof", JStr "received")]] [] [] 0 0 =
    process_members [] (app [] rl) (app [] pl)
                    (0 + Z.of_nat (List.length rl))%Z (0 + Z.of_nat (List.length pl))%Z /\
    ((rl = [format_record [("client4", JStr "192.0.2.1"); ("routedspoof", JStr "received");
                           ("privatespoof", JStr "received")] ++ nl] /\
      dict_get [("client4", JStr "192.0.2.1"); ("routedspoof", JStr "received");
                ("privatespoof", JStr "received")] "routedspoof" = Some (JStr "received")) \/
     (rl = [] /\ dict_get [("client4", JStr "192.0.2.1"); ("routedspoof", JStr "received");
                           ("privatespoof", JStr "received")] "routedspoof"
                 <> Some (JStr "received"))) /\
    ((pl = [format_record [("client4", JStr "192.0.2.1"); ("routedspoof", JStr "received");
                           ("privatespoof", JStr "received")] ++ nl] /\
      dict_get [("client4", JStr "192.0.2.1"); ("routedspoof", JStr "received");
                ("privatespoof", JStr "received")] "privatespoof" = Some (JStr "received")) \/
     (pl = [] /\ dict_get [("client4", JStr "192.0.2.1"); ("routedspoof", JStr "received");
                           ("privatespoof", JStr "received")] "privatespoof"
                 <> Some (JStr "received"))) /\
    (rl <> [] -> pl <> [] -> rl = pl).
Proof.
  split; [reflexivity|]. split; [discriminate|].
  apply (classify_eligible_routed_private _ [] [] [] 0 0 "192.0.2.1");
    [reflexivity | discriminate].
Defined.

(** C4: a record whose client4 field is missing, null or the empty string
    adds no line to either file and nothing to either count, whatever its
    other fields hold. *)
Theorem classify_skips_missing_client4 :
  forall session rest rf pf rc pc,
  dict_get session "client4" = None \/ dict_get session "client4" = Some JNull \/
  dict_get session "client4" = Some (JStr "") ->
  process_members (JObj session :: rest) rf pf rc pc =
  process_members rest rf pf rc pc.
Proof.
  intros session rest rf pf rc pc H.
  assert (Ht : truthy (dict_get_or session "client4" JNull) = false).
  { unfold dict_get_or; destruct H as [H | [H | H]]; rewrite H; reflexivity. }
  cbn [process_members]; rewrite Ht; reflexivity.
Qed.

Lemma classify_skips_missing_client4_witness :
  (dict_get [("session", JNum 1); ("routedspoof", JStr "received");
             ("privatespoof", JStr "received")] "client4" = None \/
   dict_get [("session", JNum 1); ("routedspoof", JStr "received");
             ("privatespoof", JStr "received")] "client4" = Some JNull \/
   dict_get [("session", JNum 1); ("routedspoof", JStr "received");
             ("privatespoof", JStr "received")] "client4" = Some (JStr "")) /\
  process_members [JObj [("session", JNum 1); ("routedspoof", JStr "received");
                         ("privatespoof", JStr "received")]] ["h"] ["h"] 0 0 =
  process_members [] ["h"] ["h"] 0 0.
Proof.
  split; [left; reflexivity|].
  apply classify_skips_missing_client4; left; reflexivity.
Defined.

(* ------------------------------------------------------------------ *)
(** ** Fetcher *)

(** C3: two request errors then a success give exactly the attempts
    0, 1, 2, the sleeps 2 then 4, and the successful payload; three request
    errors give [None] (the fetcher has no exceptional result). *)
Theorem fetch_page_retry_backoff :
  forall (get : nat -> response) e1 e2 payload (get' : nat -> response),
  get 0%nat = RespErr e1 -> get 1%nat = RespErr e2 -> get 2%nat = RespOk payload ->
  (forall a, (a < 3)%nat -> exists e, get' a = RespErr e) ->
  (attempts_of (fst (fetch_page get)) = [0; 1; 2]%nat /\
   sleeps_of (fst (fetch_page get)) = [2; 4]%Z /\
   snd (fetch_page get) = Some payload) /\
  (attempts_of (fst (fetch_page get')) = [0; 1; 2]%nat /\
   sleeps_of (fst (fetch_page get')) = [2; 4]%Z /\
   snd (fetch_page get') = None).
Proof.
  intros get e1 e2 payload get' H0 H1 H2 Hf.
  destruct (Hf 0%nat ltac:(lia)) as [f0 F0].
  destruct (Hf 1%nat ltac:(lia)) as [f1 F1].
  destruct (Hf 2%nat ltac:(lia)) as [f2 F2].
  unfold fetch_page; simpl.
  rewrite H0, H1, H2, F0, F1, F2; simpl.
  repeat split; reflexivity.
Qed.

Lemma fetch_page_retry_backoff_witness :
  (attempts_of (fst (fetch_page (fun a => if Nat.ltb a 2 then RespErr "timeout"
                                           else RespOk (JObj [])))) = [0; 1; 2]%nat /\
   sleeps_of (fst (fetch_page (fun a => if Nat.ltb a 2 then RespErr "timeout"
                                         else RespOk (JObj [])))) = [2; 4]%Z /\
   snd (fetch_page (fun a => if Nat.ltb a 2 then RespErr "timeout"
                             else RespOk (JObj []))) = Some (JObj [])) /\
  (attempts_of (fst (fetch_page (fun _ => RespErr "503"))) = [0; 1; 2]%nat /\
   sleeps_of (fst (fetch_page (fun _ => RespErr "503"))) = [2; 4]%Z /\
   snd (fetch_page (fun _ => RespErr "503")) = None).
Proof.
  apply (fetch_page_retry_backoff _ "timeout" "timeout" (JObj []) (fun _ => RespErr "503"));
    try reflexivity.
  intros a _; exists "503"; reflexivity.
Defined.

(* ------------------------------------------------------------------ *)
(** ** Estimator *)

(** C7: with fewer than two processed pages the estimator returns the
    placeholder "Calculating..." whatever the elapsed time and estimate. *)
Theorem estimate_placeholder_below_two :
  forall c elapsed, (pages_processed c < 2)%Z ->
  estimate_completion c elapsed = Ok Calculating /\
  eta_text Calculating = "Calculating...".
Proof.
  intros c elapsed H; unfold estimate_completion.
  apply Z.ltb_lt in H; rewrite H; split; reflexivity.
Qed.

Lemma estimate_placeholder_below_two_witness :
  (pages_processed (counted init_collector) < 2)%Z /\
  estimate_completion (counted init_collector) (float_of_Z 42) = Ok Calculating /\
  eta_text Calculating = "Calculating...".
Proof.
  split; [vm_compute; reflexivity|].
  apply estimate_placeholder_below_two; vm_compute; reflexivity.
Defined.

(* ------------------------------------------------------------------ *)
(** ** Formatting *)

(** C9 (the session placeholder): a record without a session field is
    rendered with the text "None" as its session id in the report URL. *)
Theorem format_record_missing_session :
  forall session, dict_get session "session" = None ->
  exists rest, format_record session =
    "Session: https://spoofer.caida.org/report.php?sessionid=None, " ++ rest.
Proof.
  intros session H; unfold format_record, dict_get_or at 1; rewrite H.
  eexists; reflexivity.
Qed.

Lemma format_record_missing_session_witness :
  dict_get [("client4", JStr "192.0.2.1"); ("routedspoof", JStr "received")] "session" = None /\
  exists rest,
    format_record [("client4", JStr "192.0.2.1"); ("routedspoof", JStr "received")] =
    "Session: https://spoofer.caida.org/report.php?sessionid=None, " ++ rest.
Proof.
  split; [reflexivity|]. apply format_record_missing_session; reflexivity.
Defined.

(* ------------------------------------------------------------------ *)
(** ** Collection loop *)

(* ------------------------------------------------------------------ *)
(** ** Collection loop *)

Lemma truthy_obj_nonempty (d : list (string * json)) : d <> [] -> truthy (JObj d) = true.
Proof. destruct d; [contradiction | reflexivity]. Qed.

(** One iteration on a truthy dict page that is processed without error. *)
Lemma collect_loop_page_step :
  forall E f url r evs d r2 nx,
  truthy url = true ->
  fetch_page (server E (List.length (r_urls r)) (api_base E ++ py_str url)) = (evs, Some (JObj d)) ->
  d <> [] ->
  process_page E (JObj d) (after_fetch r (api_base E ++ py_str url) evs) = (r2, Ok nx) ->
  collect_loop E (S f) url r = collect_loop E f nx r2.
Proof.
  intros E f url r evs d r2 nx Hu Hf Hd Hp.
  cbn [collect_loop]; rewrite Hu; cbn [negb].
  rewrite Hf, (truthy_obj_nonempty d Hd), Hp; reflexivity.
Qed.

(** An iteration with a truthy [next_url] always fetches it first. *)
Lemma collect_loop_fetches_first :
  forall E f url r, truthy url = true ->
  exists l, r_urls (snd (collect_loop E (S f) url r)) =
            app (r_urls r) (app [api_base E ++ py_str url] l).
Proof.
  intros E f url r Hu.
  cbn [collect_loop]; rewrite Hu; cbn [negb].
  destruct (fetch_page _) as [evs data].
  destruct data as [v|]; [destruct (truthy v)|]; cbn [snd fail_notice r_urls after_fetch];
    try (exists []; reflexivity).
  destruct (process_page E v (after_fetch r (api_base E ++ py_str url) evs))
    as [r2 [nx|x]] eqn:Hp;
    apply process_page_frame in Hp; destruct Hp as [U2 _];
    cbn [after_fetch r_urls] in U2.
  - destruct (collect_loop E f nx r2) as [e r'] eqn:Hl; cbn [snd].
    apply collect_loop_extends in Hl; destruct Hl as [[k U] _].
    rewrite U, U2. exists k; rewrite <- app_assoc; reflexivity.
  - cbn [snd]; rewrite U2; exists []; reflexivity.
Qed.

(** C2: after a page is fetched and processed, the loop fetches a
    following page exactly when the page carries a continuation reference
    (and then the next URL fetched is the one it names); without one the
    loop ends and fetches nothing more. *)
Theorem pagination_follows_next_ref :
  forall E fuel url r evs d r2 nx,
  truthy url = true ->
  fetch_page (server E (List.length (r_urls r)) (api_base E ++ py_str url)) = (evs, Some (JObj d)) ->
  d <> [] ->
  process_page E (JObj d) (after_fetch r (api_base E ++ py_str url) evs) = (r2, Ok nx) ->
  next_is_url_or_null d ->
  (has_next_ref d = true ->
     exists view u rest,
       dict_get d "hydra:view" = Some (JObj view) /\
       dict_get view "hydra:next" = Some (JStr u) /\
       r_urls (snd (collect_loop E (S (S fuel)) url r)) =
       app (r_urls r) (app [api_base E ++ py_str url; api_base E ++ u] rest)) /\
  (has_next_ref d = false ->
     collect_loop E (S fuel) url r = (LDone, r2) /\
     r_urls r2 = app (r_urls r) [api_base E ++ py_str url]).
Proof.
  intros E fuel url r evs d r2 nx Hu Hf Hd Hp Hc.
  pose proof (process_page_next_value _ _ _ _ _ Hp) as N.
  pose proof (process_page_frame _ _ _ _ _ Hp) as [U _].
  cbn [after_fetch r_urls] in U.
  split.
  - intro Hn. unfold has_next_ref in Hn.
    destruct (dict_get d "hydra:view") as [[| | | | | view]|] eqn:Hv; try discriminate.
    destruct (dict_get view "hydra:next") as [[| | | u | |]|] eqn:Hx; try discriminate.
    exists view, u.
    rewrite (collect_loop_page_step E (S fuel) url r evs d r2 nx Hu Hf Hd Hp).
    assert (Hnx : nx = JStr u) by (rewrite N; unfold dict_get_or; rewrite Hx; reflexivity).
    subst nx.
    assert (Ht : truthy (JStr u) = true) by exact Hn.
    destruct (collect_loop_fetches_first E fuel (JStr u) r2 Ht) as [l Hl].
    exists l. split; [first [exact Hv | reflexivity]|]. split; [first [exact Hx | reflexivity]|].
    rewrite ?Hnx, Hl, U; simpl. rewrite <- app_assoc; reflexivity.
  - intro Hn.
    assert (Hf0 : truthy nx = false).
    { rewrite N. unfold has_next_ref in Hn.
      destruct (dict_get d "hydra:view") as [[| | | | | view]|] eqn:Hv; try reflexivity.
      unfold dict_get_or.
      destruct (dict_get view "hydra:next") as [x|] eqn:Hx; [|reflexivity].
      destruct (Hc view x Hv Hx) as [-> | [u ->]]; [reflexivity|].
      simpl; simpl in Hn; exact Hn. }
    rewrite (collect_loop_page_step E fuel url r evs d r2 nx Hu Hf Hd Hp).
    destruct fuel; cbn [collect_loop]; rewrite Hf0; split; reflexivity || exact U.
Qed.
(** C5: when [fetch_page] returns [None], the loop stops: both files are
    closed with everything written so far unchanged, the run finishes
    normally, and the failure notice and the final summary are printed;
    every run's files start with the header. *)
Theorem fetch_failure_ends_run_gracefully :
  forall E fuel url r evs,
  truthy url = true ->
  fetch_page (server E (List.length (r_urls r)) (api_base E ++ py_str url)) = (evs, None) ->
  finish E (collect_loop E (S fuel) url r) =
  {| o_status := Finished; o_closed := true;
     o_run := {| r_coll := r_coll r; r_routed := r_routed r; r_private := r_private r;
                 r_console := app (app (app (r_console r) (says_of evs))
                                       [nl ++ "Failed to fetch data. Stopping."])
                                  (summary E (r_coll r));
                 r_urls := app (r_urls r) [api_base E ++ py_str url] |} |} /\
  (exists l1 l2, r_routed (o_run (collect_data E fuel)) = file_header E :: l1 /\
                 r_private (o_run (collect_data E fuel)) = file_header E :: l2).
Proof.
  intros E fuel url r evs Hu Hf. split.
  - cbn [collect_loop]; rewrite Hu; cbn [negb]; rewrite Hf; reflexivity.
  - unfold collect_data.
    match goal with |- context [collect_loop E fuel ?u ?r0] =>
      destruct (collect_loop E fuel u r0) as [e r'] eqn:Hl end.
    apply collect_loop_extends in Hl; destruct Hl as [_ [[l1 R] [l2 P]]].
    simpl in R, P.
    destruct e; simpl; exists l1, l2; split; assumption.
Qed.


(* ------------------------------------------------------------------ *)
(** ** Estimator with a total-page estimate *)




(** C8 (as the code has it): when no estimate is known and the string
    [hydra:last] reference has no "&"-segment starting with "page=", or
    the first such segment's text between its first and second "=" is not
    an integer literal for [int()], [update_progress] only counts the page,
    raises nothing and leaves the estimate unset; the following ETA (from
    the second page on, when the average time per page is a non-zero
    float) is the throughput message. *)
Theorem malformed_last_ref_keeps_estimate_unset :
  forall c d view u,
  estimated_total_pages c = None ->
  dict_get d "hydra:view" = Some (JObj view) ->
  dict_get view "hydra:last" = Some (JStr u) ->
  last_ref_malformed u ->
  update_progress c (JObj d) = (counted c, Ok []) /\
  estimated_total_pages (counted c) = None /\
  (forall elapsed fp avg, (1 <= pages_processed c)%Z ->
     py_float_of_int (pages_processed c + 1) = Ok fp ->
     py_fdiv elapsed fp = Ok avg -> float_zero avg = false ->
     estimate_completion (counted c) elapsed = Ok (Rate (fdiv (float_of_Z 1) avg))).
Proof.
  intros c d view u He Hv Hl Hm.
  split; [exact (update_progress_unparsed c d view u He Hv Hl (malformed_parse_none u Hm))|].
  split; [exact He|].
  intros elapsed fp avg Hp Hfp Havg Hz.
  apply (estimate_rate_without_total (counted c) elapsed fp avg He); cbn; [lia | exact Hfp
                                                                    | exact Havg | exact Hz].
Qed.

Lemma malformed_last_ref_keeps_estimate_unset_witness :
  estimated_total_pages (counted init_collector) = None /\
  dict_get [("hydra:view", JObj [("hydra:last", JStr demo_last_no_page)])] "hydra:view" =
    Some (JObj [("hydra:last", JStr demo_last_no_page)]) /\
  dict_get [("hydra:last", JStr demo_last_no_page)] "hydra:last" = Some (JStr demo_last_no_page) /\
  last_ref_malformed demo_last_no_page /\
  update_progress (counted init_collector)
    (JObj [("hydra:view", JObj [("hydra:last", JStr demo_last_no_page)])]) =
    (counted (counted init_collector), Ok []) /\
  estimated_total_pages (counted (counted init_collector)) = None /\
  (forall elapsed fp avg, (1 <= pages_processed (counted init_collector))%Z ->
     py_float_of_int (pages_processed (counted init_collector) + 1) = Ok fp ->
     py_fdiv elapsed fp = Ok avg -> float_zero avg = false ->
     estimate_completion (counted (counted init_collector)) elapsed =
       Ok (Rate (fdiv (float_of_Z 1) avg))).
Proof.
  split; [reflexivity|]. split; [reflexivity|]. split; [reflexivity|].
  split; [vm_compute; exact I|].
  apply (malformed_last_ref_keeps_estimate_unset (counted init_collector) _
           [("hydra:last", JStr demo_last_no_page)] demo_last_no_page);
    [reflexivity | reflexivity | reflexivity | vm_compute; exact I].
Defined.

(** C8 fails on a value field holding a second "=": the value "5=6" of the
    page parameter is not an integer, yet the code reads the text up to the
    second "=" and sets the estimate to 5. *)
Lemma last_ref_second_equals_counterexample :
  page_segment demo_last_two_equals = Some "page=5=6" /\
  py_int "5=6" = None /\
  estimated_total_pages
    (fst (update_progress init_collector
            (JObj [("hydra:view", JObj [("hydra:last", JStr demo_last_two_equals)])]))) =
    Some 5%Z /\
  snd (update_progress init_collector
         (JObj [("hydra:view", JObj [("hydra:last", JStr demo_last_two_equals)])])) =
    Ok ["Estimated total pages: 5"].
Proof.
  vm_compute. split; [reflexivity|]. split; [reflexivity|]. split; reflexivity.
Qed.

(** C10: when the page parameter of the last-page URL is the first query
    parameter (right after "?", with no "&" before it and no other
    "page=" parameter after it), no "&"-segment starts with "page=": the
    estimate stays unknown and the ETA (second page on, when the average
    time per page is a non-zero float) is the throughput message. *)
Theorem first_query_page_param_not_found :
  forall c d view base q,
  estimated_total_pages c = None ->
  dict_get d "hydra:view" = Some (JObj view) ->
  dict_get view "hydra:last" = Some (JStr (base ++ "?page=" ++ q)) ->
  String.prefix "page=" base = false ->
  forallb (fun x => negb (Ascii.eqb x "&"%char)) (list_ascii_of_string base) = true ->
  forallb (fun p => negb (String.prefix "page=" p)) (tl (split_char "&"%char q)) = true ->
  page_segment (base ++ "?page=" ++ q) = None /\
  update_progress c (JObj d) = (counted c, Ok []) /\
  (forall elapsed fp avg, (1 <= pages_processed c)%Z ->
     py_float_of_int (pages_processed c + 1) = Ok fp ->
     py_fdiv elapsed fp = Ok avg -> float_zero avg = false ->
     estimate_completion (counted c) elapsed = Ok (Rate (fdiv (float_of_Z 1) avg))).
Proof.
  intros c d view base q He Hv Hl Hb Hamp Hrest.
  assert (Hseg : page_segment (base ++ "?page=" ++ q) = None).
  { unfold page_segment.
    rewrite (split_char_app_free "&"%char base ("?page=" ++ q) Hamp).
    rewrite (split_char_app_free "&"%char "?page=" q eq_refl).
    destruct (split_char "&"%char q) as [|x rs] eqn:Eq;
      [exfalso; exact (split_char_nonempty _ q Eq)|].
    simpl in Hrest. cbn [filter].
    rewrite (prefix_page_before_qmark base ("page=" ++ x) Hb
             : String.prefix "page=" (base ++ "?page=" ++ x) = false).
    rewrite (filter_all_false _ rs Hrest); reflexivity. }
  split; [exact Hseg|].
  assert (Hp : parse_last_page (base ++ "?page=" ++ q) = None).
  { apply malformed_parse_none; unfold last_ref_malformed; rewrite Hseg; exact I. }
  split; [exact (update_progress_unparsed c d view _ He Hv Hl Hp)|].
  intros elapsed fp avg Hpp Hfp Havg Hz.
  apply (estimate_rate_without_total (counted c) elapsed fp avg He); cbn; [lia | exact Hfp
                                                                    | exact Havg | exact Hz].
Qed.

Lemma first_query_page_param_not_found_witness :
  estimated_total_pages (counted init_collector) = None /\
  dict_get [("hydra:view", JObj [("hydra:last", JStr (demo_base ++ "?page=" ++ demo_query))])]
    "hydra:view" = Some (JObj [("hydra:last", JStr (demo_base ++ "?page=" ++ demo_query))]) /\
  String.prefix "page=" demo_base = false /\
  forallb (fun x => negb (Ascii.eqb x "&"%char)) (list_ascii_of_string demo_base) = true /\
  forallb (fun p => negb (String.prefix "page=" p)) (tl (split_char "&"%char demo_query)) = true /\
  page_segment (demo_base ++ "?page=" ++ demo_query) = None /\
  update_progress (counted init_collector)
    (JObj [("hydra:view", JObj [("hydra:last", JStr (demo_base ++ "?page=" ++ demo_query))])]) =
    (counted (counted init_collector), Ok []) /\
  (forall elapsed fp avg, (1 <= pages_processed (counted init_collector))%Z ->
     py_float_of_int (pages_processed (counted init_collector) + 1) = Ok fp ->
     py_fdiv elapsed fp = Ok avg -> float_zero avg = false ->
     estimate_completion (counted (counted init_collector)) elapsed =
       Ok (Rate (fdiv (float_of_Z 1) avg))).
Proof.
  split; [reflexivity|]. split; [reflexivity|]. split; [vm_compute; reflexivity|].
  split; [vm_compute; reflexivity|]. split; [vm_compute; reflexivity|].
  apply (first_query_page_param_not_found (counted init_collector) _
           [("hydra:last", JStr (demo_base ++ "?page=" ++ demo_query))] demo_base demo_query);
    first [reflexivity | vm_compute; reflexivity].
Defined.

Lemma pagination_follows_next_ref_witness :
  truthy (JStr (initial_url demo_env)) = true /\
  fetch_page (server demo_env (List.length (r_urls (initial_run demo_env))) demo_url1) =
    (demo_evs1, Some (JObj demo_page1)) /\
  demo_page1 <> [] /\
  process_page demo_env (JObj demo_page1) (after_fetch (initial_run demo_env) demo_url1 demo_evs1) =
    (fst demo_step1, Ok (snd demo_step1)) /\
  next_is_url_or_null demo_page1 /\
  (has_next_ref demo_page1 = true ->
     exists view u rest,
       dict_get demo_page1 "hydra:view" = Some (JObj view) /\
       dict_get view "hydra:next" = Some (JStr u) /\
       r_urls (snd (collect_loop demo_env 3 (JStr (initial_url demo_env)) (initial_run demo_env))) =
       app (r_urls (initial_run demo_env))
           (app [api_base demo_env ++ py_str (JStr (initial_url demo_env)); api_base demo_env ++ u]
                rest)) /\
  (has_next_ref demo_page1 = false ->
     collect_loop demo_env 2 (JStr (initial_url demo_env)) (initial_run demo_env) =
       (LDone, fst demo_step1) /\
     r_urls (fst demo_step1) =
       app (r_urls (initial_run demo_env)) [api_base demo_env ++ py_str (JStr (initial_url demo_env))]).
Proof.
  assert (Hc : next_is_url_or_null demo_page1).
  { intros view x Hv Hx. cbn in Hv. inversion Hv; subst. cbn in Hx. inversion Hx; subst.
    right; eexists; reflexivity. }
  split; [reflexivity|]. split; [vm_compute; reflexivity|]. split; [discriminate|].
  split; [vm_compute; reflexivity|]. split; [exact Hc|].
  apply (pagination_follows_next_ref demo_env 1 (JStr (initial_url demo_env))
           (initial_run demo_env) demo_evs1 demo_page1 (fst demo_step1) (snd demo_step1));
    [reflexivity | vm_compute; reflexivity | discriminate | vm_compute; reflexivity | exact Hc].
Defined.
Lemma fetch_failure_ends_run_gracefully_witness :
  truthy (snd demo_step1) = true /\
  fetch_page (server demo_env (List.length (r_urls (fst demo_step1)))
                     (api_base demo_env ++ py_str (snd demo_step1))) = (demo_evs2, None) /\
  finish demo_env (collect_loop demo_env 1 (snd demo_step1) (fst demo_step1)) =
  {| o_status := Finished; o_closed := true;
     o_run := {| r_coll := r_coll (fst demo_step1); r_routed := r_routed (fst demo_step1);
                 r_private := r_private (fst demo_step1);
                 r_console := app (app (app (r_console (fst demo_step1)) (says_of demo_evs2))
                                       [nl ++ "Failed to fetch data. Stopping."])
                                  (summary demo_env (r_coll (fst demo_step1)));
                 r_urls := app (r_urls (fst demo_step1))
                               [api_base demo_env ++ py_str (snd demo_step1)] |} |} /\
  (exists l1 l2, r_routed (o_run (collect_data demo_env 0)) = file_header demo_env :: l1 /\
                 r_private (o_run (collect_data demo_env 0)) = file_header demo_env :: l2).
Proof.
  split; [reflexivity|]. split; [vm_compute; reflexivity|].
  apply fetch_failure_ends_run_gracefully; [reflexivity | vm_compute; reflexivity].
Defined.

(* ------------------------------------------------------------------ *)
(** ** Further properties of the collector *)

(** [process_data] on a page whose members are all dicts: the routed file
    gets one line per record with a truthy client4 and routedspoof equal to
    "received", in member order, the private file likewise, and the two
    counts returned are the numbers of lines written. *)
Theorem process_data_writes_and_counts :
  forall data rf pf ms ss,
  py_iter (dict_get_or data "hydra:member" (JArr [])) = Ok ms ->
  objs_of ms = Some ss ->
  process_data (JObj data) rf pf =
  ((app rf (map record_line (filter routed_sel ss)),
    app pf (map record_line (filter private_sel ss))),
   Ok (Z.of_nat (List.length (filter routed_sel ss)),
       Z.of_nat (List.length (filter private_sel ss)))).
Proof.
  intros data rf pf ms ss Hi Ho.
  unfold process_data; cbn [py_get bind]; rewrite Hi.
  exact (process_members_spec ms ss rf pf 0 0 Ho).
Qed.

Lemma process_data_writes_and_counts_witness :
  py_iter (dict_get_or demo_page1 "hydra:member" (JArr [])) =
    Ok [JObj [("session", JNum 1); ("client4", JStr "192.0.2.1");
              ("routedspoof", JStr "received")]] /\
  objs_of [JObj [("session", JNum 1); ("client4", JStr "192.0.2.1");
                 ("routedspoof", JStr "received")]] =
    Some [[("session", JNum 1); ("client4", JStr "192.0.2.1");
           ("routedspoof", JStr "received")]] /\
  process_data (JObj demo_page1) ["h"] ["h"] =
  ((app ["h"] (map record_line (filter routed_sel
        [[("session", JNum 1); ("client4", JStr "192.0.2.1"); ("routedspoof", JStr "received")]])),
    app ["h"] (map record_line (filter private_sel
        [[("session", JNum 1); ("client4", JStr "192.0.2.1"); ("routedspoof", JStr "received")]]))),
   Ok (Z.of_nat (List.length (filter routed_sel
        [[("session", JNum 1); ("client4", JStr "192.0.2.1"); ("routedspoof", JStr "received")]])),
       Z.of_nat (List.length (filter private_sel
        [[("session", JNum 1); ("client4", JStr "192.0.2.1"); ("routedspoof", JStr "received")]])))).
Proof.
  split; [reflexivity|]. split; [reflexivity|].
  apply (process_data_writes_and_counts demo_page1 ["h"] ["h"]
           [JObj [("session", JNum 1); ("client4", JStr "192.0.2.1");
                  ("routedspoof", JStr "received")]]); reflexivity.
Defined.



(** The files, counters and fetched URLs at the end of the collection
    loop, from a run where each file holds its header and one entry per
    counted match, and one URL was fetched per processed page. *)
Lemma collect_loop_inv : forall E fuel nx r e r',
  collect_loop E fuel nx r = (e, r') -> run_inv r ->
  (1 + total_routed (r_coll r') <= Z.of_nat (List.length (r_routed r')))%Z /\
  (1 + total_private (r_coll r') <= Z.of_nat (List.length (r_private r')))%Z /\
  (pages_processed (r_coll r') <= Z.of_nat (List.length (r_urls r')) <=
     pages_processed (r_coll r') + 1)%Z /\
  match e with
  | LRaise _ => Z.of_nat (List.length (r_urls r')) = pages_processed (r_coll r')
  | _ => Z.of_nat (List.length (r_routed r')) = (1 + total_routed (r_coll r'))%Z /\
         Z.of_nat (List.length (r_private r')) = (1 + total_private (r_coll r'))%Z
  end.
Proof.
  induction fuel as [|f IH]; intros nx r e r' H Hi; cbn [collect_loop] in H;
    destruct Hi as [HR [HP HU]];
    destruct (truthy nx); cbn [negb] in H;
    try (inversion H; subst; repeat split; lia).
  destruct (fetch_page _) as [evs data].
  destruct data as [v|]; [destruct (truthy v)|].
  - destruct (process_page E v (after_fetch r (api_base E ++ py_str nx) evs))
      as [r2 [nx'|x]] eqn:Hp;
      pose proof (process_page_frame _ _ _ _ _ Hp) as [U [_ [_ Pp]]];
      destruct (process_page_counts _ _ _ _ _ Hp)
        as [drec [dr [dp [A [B [C [D1 [D2 [L1 [L2 L3]]]]]]]]]];
      cbn [after_fetch r_coll r_routed r_private r_urls] in U, Pp, A, B, C, L1, L2, L3.
    + apply (IH nx' r2 e r' H).
      destruct (L3 nx' eq_refl) as [E1 E2].
      unfold run_inv; rewrite U, length_app; cbn [List.length]; lia.
    + inversion H; subst. rewrite U, length_app; cbn [List.length]. repeat split; lia.
  - inversion H; subst; cbn [fail_notice after_fetch r_coll r_routed r_private r_urls];
      rewrite length_app; cbn [List.length]; repeat split; lia.
  - inversion H; subst; cbn [fail_notice after_fetch r_coll r_routed r_private r_urls];
      rewrite length_app; cbn [List.length]; repeat split; lia.
Qed.

Lemma collect_data_inv : forall E fuel,
  (1 + total_routed (r_coll (o_run (collect_data E fuel))) <=
     Z.of_nat (List.length (r_routed (o_run (collect_data E fuel)))))%Z /\
  (1 + total_private (r_coll (o_run (collect_data E fuel))) <=
     Z.of_nat (List.length (r_private (o_run (collect_data E fuel)))))%Z /\
  (pages_processed (r_coll (o_run (collect_data E fuel))) <=
     Z.of_nat (List.length (r_urls (o_run (collect_data E fuel)))) <=
     pages_processed (r_coll (o_run (collect_data E fuel))) + 1)%Z /\
  (forall x, o_status (collect_data E fuel) = Crashed x ->
     Z.of_nat (List.length (r_urls (o_run (collect_data E fuel)))) =
     pages_processed (r_coll (o_run (collect_data E fuel)))) /\
  ((forall x, o_status (collect_data E fuel) <> Crashed x) ->
     Z.of_nat (List.length (r_routed (o_run (collect_data E fuel)))) =
       (1 + total_routed (r_coll (o_run (collect_data E fuel))))%Z /\
     Z.of_nat (List.length (r_private (o_run (collect_data E fuel)))) =
       (1 + total_private (r_coll (o_run (collect_data E fuel))))%Z).
Proof.
  intros E fuel. unfold collect_data.
  destruct (collect_loop E fuel (JStr (initial_url E)) (initial_run E)) as [e r'] eqn:Hl.
  apply collect_loop_inv in Hl; [|unfold run_inv; split; [|split]; reflexivity].
  destruct Hl as [A [B [C D]]].
  destruct e as [|x|]; cbn [finish o_run o_status r_coll r_routed r_private r_urls];
    refine (conj A (conj B (conj C (conj _ _))));
    first [intros y Hy; discriminate | intros Hy; exact D | intros y Hy; exact D
          | intros Hy; exfalso; exact (Hy x eq_refl)].
Qed.

(** Every run of [collect_data], finished, crashed or still running, has
    in each output file the header plus at least as many entries as the
    corresponding total (the routed and private totals of the summary),
    and exactly as many unless the run crashed: an exception in
    [process_data] leaves the lines of the page written so far in the
    files, uncounted. *)
Theorem collect_data_files_vs_totals :
  forall E fuel,
  (1 + total_routed (r_coll (o_run (collect_data E fuel))) <=
     Z.of_nat (List.length (r_routed (o_run (collect_data E fuel)))))%Z /\
  (1 + total_private (r_coll (o_run (collect_data E fuel))) <=
     Z.of_nat (List.length (r_private (o_run (collect_data E fuel)))))%Z /\
  ((forall x, o_status (collect_data E fuel) <> Crashed x) ->
     Z.of_nat (List.length (r_routed (o_run (collect_data E fuel)))) =
       (1 + total_routed (r_coll (o_run (collect_data E fuel))))%Z /\
     Z.of_nat (List.length (r_private (o_run (collect_data E fuel)))) =
       (1 + total_private (r_coll (o_run (collect_data E fuel))))%Z).
Proof.
  intros E fuel; destruct (collect_data_inv E fuel) as [A [B [_ [_ C]]]].
  split; [exact A | split; [exact B | exact C]].
Qed.

Lemma collect_data_files_vs_totals_witness :
  o_status (collect_data demo_env 3) = Finished /\
  Z.of_nat (List.length (r_routed (o_run (collect_data demo_env 3)))) =
    (1 + total_routed (r_coll (o_run (collect_data demo_env 3))))%Z /\
  Z.of_nat (List.length (r_private (o_run (collect_data demo_env 3)))) =
    (1 + total_private (r_coll (o_run (collect_data demo_env 3))))%Z.
Proof.
  split; [vm_compute; reflexivity|].
  apply (proj2 (proj2 (collect_data_files_vs_totals demo_env 3))).
  intro x; vm_compute; discriminate.
Defined.


(** [fetch_page] stops at the first successful attempt [a] (of the three):
    it made the requests 0..a, slept 2, 4, ... seconds once per failed
    attempt, printed one diagnostic per failure, and returns that payload. *)
Theorem fetch_page_first_success :
  forall (get : nat -> response) a payload,
  (a < 3)%nat ->
  (forall i, (i < a)%nat -> exists e, get i = RespErr e) ->
  get a = RespOk payload ->
  attempts_of (fst (fetch_page get)) = seq 0 (S a) /\
  sleeps_of (fst (fetch_page get)) = firstn a [2; 4]%Z /\
  List.length (says_of (fst (fetch_page get))) = a /\
  snd (fetch_page get) = Some payload.
Proof.
  intros get a payload Ha Hf Hs.
  unfold fetch_page; cbn [seq max_retries Nat.sub].
  destruct a as [|[|[|a]]]; [| | |lia].
  - cbn [fetch_loop]; rewrite Hs; repeat split.
  - destruct (Hf 0%nat ltac:(lia)) as [e0 E0].
    cbn [fetch_loop]; rewrite E0; cbn [Nat.ltb Nat.leb max_retries Nat.sub].
    rewrite Hs; repeat split.
  - destruct (Hf 0%nat ltac:(lia)) as [e0 E0].
    destruct (Hf 1%nat ltac:(lia)) as [e1 E1].
    cbn [fetch_loop]; rewrite E0; cbn [Nat.ltb Nat.leb max_retries Nat.sub].
    rewrite E1; cbn [Nat.ltb Nat.leb max_retries Nat.sub].
    rewrite Hs; repeat split.
Qed.

Lemma fetch_page_first_success_witness :
  let get := fun i : nat => if Nat.eqb i 0 then RespErr "503 Service Unavailable"
                            else RespOk (JObj []) in
  attempts_of (fst (fetch_page get)) = seq 0 2 /\
  sleeps_of (fst (fetch_page get)) = firstn 1 [2; 4]%Z /\
  List.length (says_of (fst (fetch_page get))) = 1%nat /\
  snd (fetch_page get) = Some (JObj []).
Proof.
  intro get. apply (fetch_page_first_success get 1 (JObj [])).
  - lia.
  - intros i Hi. exists "503 Service Unavailable".
    assert (i = 0%nat) by lia; subst; reflexivity.
  - reflexivity.
Defined.

(** Whatever the server does, [fetch_page] sends at most three requests;
    it returns [None] exactly when all three attempts failed, and any
    payload it returns is the one of an attempt that succeeded. *)
Theorem fetch_page_bounded :
  forall get : nat -> response,
  (1 <= List.length (attempts_of (fst (fetch_page get))) <= 3)%nat /\
  (snd (fetch_page get) = None <-> forall i, (i < 3)%nat -> exists e, get i = RespErr e) /\
  (forall p, snd (fetch_page get) = Some p ->
     exists a, (a < 3)%nat /\ get a = RespOk p).
Proof.
  intro get. unfold fetch_page; cbn [seq max_retries Nat.sub].
  cbn [fetch_loop].
  destruct (get 0%nat) as [p0|e0] eqn:G0.
  { cbn; split; [lia|split].
    - split; [discriminate|intro H; destruct (H 0%nat ltac:(lia)) as [e E]; congruence].
    - intros p H; inversion H; subst; exists 0%nat; split; [lia|exact G0]. }
  cbn [Nat.ltb Nat.leb max_retries Nat.sub].
  destruct (get 1%nat) as [p1|e1] eqn:G1.
  { cbn; split; [lia|split].
    - split; [discriminate|intro H; destruct (H 1%nat ltac:(lia)) as [e E]; congruence].
    - intros p H; inversion H; subst; exists 1%nat; split; [lia|exact G1]. }
  cbn [Nat.ltb Nat.leb max_retries Nat.sub].
  destruct (get 2%nat) as [p2|e2] eqn:G2.
  { cbn; split; [lia|split].
    - split; [discriminate|intro H; destruct (H 2%nat ltac:(lia)) as [e E]; congruence].
    - intros p H; inversion H; subst; exists 2%nat; split; [lia|exact G2]. }
  cbn; split; [lia|split].
  - split; [|reflexivity]. intros _ i Hi.
    destruct i as [|[|[|i]]]; [exists e0 | exists e1 | exists e2 | lia]; assumption.
  - discriminate.
Qed.


Lemma fetch_page_bounded_witness :
  let get := fun _ : nat => RespErr "500 Internal Server Error" in
  (1 <= List.length (attempts_of (fst (fetch_page get))) <= 3)%nat /\
  snd (fetch_page get) = None.
Proof.
  intro get. destruct (fetch_page_bounded get) as [B [[_ N] _]]. split; [exact B|].
  apply N. intros i _. exists "500 Internal Server Error"; reflexivity.
Defined.

(** [update_progress] only counts the page (no estimate change, nothing
    printed, nothing raised) when an estimate is already known or the page
    has no [hydra:view]; in particular a known non-zero estimate is never
    replaced. *)
Theorem update_progress_only_counts :
  forall c d,
  est_known (estimated_total_pages c) = true \/ dict_get d "hydra:view" = None ->
  update_progress c (JObj d) = (counted c, Ok []).
Proof.
  intros c d [H | H]; unfold update_progress; [rewrite H; reflexivity|].
  destruct (est_known (estimated_total_pages c)); [reflexivity|].
  unfold last_page_estimate; cbn [py_contains bind]; rewrite H; reflexivity.
Qed.

Lemma update_progress_only_counts_witness :
  let c := {| total_records := 50; total_routed := 3; total_private := 1; page := 2;
              pages_processed := 1; estimated_total_pages := Some 40%Z |} in
  (est_known (estimated_total_pages c) = true \/ dict_get demo_page1 "hydra:view" = None) /\
  update_progress c (JObj demo_page1) = (counted c, Ok []).
Proof.
  intro c. split; [left; reflexivity|].
  apply update_progress_only_counts; left; reflexivity.
Defined.

(** While no usable estimate is known, a [hydra:last] string whose first
    "page=" segment carries an integer literal between its first and second
    '=' sets the estimate to that integer, the page is counted, and the
    message "Estimated total pages: N" is printed. *)
Theorem update_progress_sets_estimate :
  forall c d view u p v n,
  est_known (estimated_total_pages c) = false ->
  dict_get d "hydra:view" = Some (JObj view) ->
  dict_get view "hydra:last" = Some (JStr u) ->
  page_segment u = Some p -> page_value_field p = Some v -> py_int v = Some n ->
  update_progress c (JObj d) =
  ({| total_records := total_records c; total_routed := total_routed c;
      total_private := total_private c; page := page c;
      pages_processed := pages_processed c + 1;
      estimated_total_pages := Some n |},
   Ok ["Estimated total pages: " ++ Z_str n]).
Proof.
  intros c d view u p v n He Hv Hl Hs Hf Hi.
  assert (Hp : parse_last_page u = Some n).
  { unfold page_segment in Hs; unfold page_value_field in Hf; unfold parse_last_page.
    destruct (filter (String.prefix "page=") (split_char "&"%char u)) as [|p0 ps];
      cbn [hd_error] in Hs; [discriminate|]. inversion Hs; subst p0.
    destruct (split_char "="%char p) as [|x [|y ys]]; cbn [nth_error] in Hf;
      try discriminate. inversion Hf; subst y; exact Hi. }
  unfold update_progress, last_page_estimate; rewrite He.
  cbn [py_contains py_index bind]; rewrite Hv; cbn [bind py_contains py_index].
  rewrite Hl; cbn [bind]. rewrite Hp. reflexivity.
Qed.

Lemma update_progress_sets_estimate_witness :
  est_known (estimated_total_pages init_collector) = false /\
  page_segment demo_last_page_url = Some "page=1234" /\
  page_value_field "page=1234" = Some "1234" /\
  py_int "1234" = Some 1234%Z /\
  update_progress init_collector (JObj demo_view_page) =
  ({| total_records := 0; total_routed := 0; total_private := 0; page := 1;
      pages_processed := 0 + 1; estimated_total_pages := Some 1234%Z |},
   Ok ["Estimated total pages: " ++ Z_str 1234]).
Proof.
  split; [reflexivity|]. split; [vm_compute; reflexivity|].
  split; [vm_compute; reflexivity|]. split; [vm_compute; reflexivity|].
  apply (update_progress_sets_estimate init_collector demo_view_page
           [("hydra:last", JStr demo_last_page_url)] demo_last_page_url "page=1234" "1234");
    first [reflexivity | vm_compute; reflexivity].
Defined.

(** [update_progress] raises only while no usable estimate is known and
    the page has a [hydra:view]: [TypeError] when that view is not a dict
    (a null, boolean or number, or a string or list containing
    "hydra:last"), [AttributeError] when it is a dict whose [hydra:last]
    is not a string; the page was counted before the exception. *)
Theorem update_progress_raises :
  forall c d e,
  snd (update_progress c (JObj d)) = Raise e ->
  fst (update_progress c (JObj d)) = counted c /\
  est_known (estimated_total_pages c) = false /\
  exists view, dict_get d "hydra:view" = Some view /\
  ((e = TypeError /\ forall v, view <> JObj v) \/
   (e = AttributeError /\ exists v l, view = JObj v /\ dict_get v "hydra:last" = Some l /\
                                      forall u, l <> JStr u)).
Proof.
  intros c d e H. unfold update_progress in *.
  destruct (est_known (estimated_total_pages c)); [discriminate|].
  unfold last_page_estimate in *. cbn [py_contains py_index bind] in *.
  destruct (dict_get d "hydra:view") as [view|] eqn:Hv; cbn [bind] in *; [|discriminate].
  destruct view as [| b | z | s | l | v]; cbn [py_contains py_index bind] in *.
  1-3: inversion H; subst; split; [reflexivity|]; split; [reflexivity|];
       eexists; split; [reflexivity|]; left; split; [reflexivity | intros v' E'; discriminate].
  - destruct (substr_in "hydra:last" s); cbn [bind py_index] in *; [|discriminate].
    inversion H; subst; split; [reflexivity|]; split; [reflexivity|].
    exists (JStr s); split; [reflexivity|]; left; split; [reflexivity | intros v' E'; discriminate].
  - destruct (existsb _ l); cbn [bind py_index] in *; [|discriminate].
    inversion H; subst; split; [reflexivity|]; split; [reflexivity|].
    exists (JArr l); split; [reflexivity|]; left; split; [reflexivity | intros v' E'; discriminate].
  - destruct (dict_get v "hydra:last") as [x|] eqn:Hl; cbn [bind] in *; [|discriminate].
    destruct x as [| | | u | |]; try (destruct (parse_last_page u); discriminate);
      inversion H; subst; split; try reflexivity; split; try reflexivity;
      exists (JObj v); split; try reflexivity; right; split; try reflexivity;
      exists v; eexists; repeat split; try exact Hl; intros u' E'; discriminate.
Qed.

Lemma update_progress_raises_witness :
  let d := [("hydra:view", JObj [("hydra:last", JNum 5)])] in
  snd (update_progress init_collector (JObj d)) = Raise AttributeError /\
  fst (update_progress init_collector (JObj d)) = counted init_collector /\
  est_known (estimated_total_pages init_collector) = false /\
  exists view, dict_get d "hydra:view" = Some view /\
  ((AttributeError = TypeError /\ forall v, view <> JObj v) \/
   (AttributeError = AttributeError /\ exists v l, view = JObj v /\
      dict_get v "hydra:last" = Some l /\ forall u, l <> JStr u)).
Proof.
  intro d. split; [reflexivity|].
  apply (update_progress_raises init_collector d AttributeError); reflexivity.
Defined.

(** The exceptions of the float operations [estimate_completion] uses. *)
Lemma bind_raise {A B} (m : pyres A) (k : A -> pyres B) (e : exc) :
  bind m k = Raise e -> m = Raise e \/ exists a, m = Ok a /\ k a = Raise e.
Proof. destruct m as [a|x]; cbn [bind]; [right; exists a; split; auto | left; congruence]. Qed.

Lemma float_of_int_raise (z : Z) (e : exc) : py_float_of_int z = Raise e -> e = OverflowError.
Proof. unfold py_float_of_int; destruct (float_of_Z z); congruence. Qed.

Lemma fdiv_raise (x y : spec_float) (e : exc) : py_fdiv x y = Raise e -> e = ZeroDivisionError.
Proof. unfold py_fdiv; destruct (float_zero y); congruence. Qed.

Lemma int_of_float_raise (x : spec_float) (e : exc) :
  py_int_of_float x = Raise e -> e = OverflowError \/ e = ValueError.
Proof. destruct x; cbn [py_int_of_float]; intro H; inversion H; auto. Qed.

Lemma fmod_raise (x y : spec_float) (e : exc) : py_fmod x y = Raise e -> e = ZeroDivisionError.
Proof.
  unfold py_fmod; destruct (float_zero y); [congruence|].
  destruct (c_fmod x y); try discriminate;
    destruct (xorb _ _); discriminate.
Qed.

(** [estimate_completion] raises only [ZeroDivisionError] (a zero average
    time per page when no usable estimate is known), [OverflowError] (an
    integer beyond the floats, or [int()] of an infinite float) and
    [ValueError] ([int()] of NaN).  Without a usable estimate, from the
    second page on, it raises [ZeroDivisionError] exactly when the
    average time per page is a float zero, and otherwise returns the
    throughput message; with an estimate whose remaining page count
    does not fit in a float it raises [OverflowError]. *)
Theorem estimate_completion_raises :
  forall c elapsed,
  (forall e, estimate_completion c elapsed = Raise e ->
     e = ZeroDivisionError \/ e = OverflowError \/ e = ValueError) /\
  (forall fp avg, est_known (estimated_total_pages c) = false -> (2 <= pages_processed c)%Z ->
     py_float_of_int (pages_processed c) = Ok fp -> py_fdiv elapsed fp = Ok avg ->
     (estimate_completion c elapsed = Raise ZeroDivisionError <-> float_zero avg = true) /\
     (float_zero avg = false ->
        estimate_completion c elapsed = Ok (Rate (fdiv (float_of_Z 1) avg)))) /\
  (forall t fp avg, estimated_total_pages c = Some t -> t <> 0%Z ->
     (2 <= pages_processed c)%Z ->
     py_float_of_int (pages_processed c) = Ok fp -> py_fdiv elapsed fp = Ok avg ->
     py_float_of_int (t - pages_processed c) = Raise OverflowError ->
     estimate_completion c elapsed = Raise OverflowError).
Proof.
  intros c elapsed. split; [|split].
  - intros e H. unfold estimate_completion, rate_eta in H.
    destruct (Z.ltb (pages_processed c) 2); [discriminate|].
    repeat match goal with
    | H : bind ?m _ = Raise _ |- _ =>
        let E := fresh "E" in destruct m eqn:E; cbn [bind] in H
    | H : (if ?b then _ else _) = Raise _ |- _ => destruct b
    | H : match ?o with Some _ => _ | None => _ end = Raise _ |- _ => destruct o
    end;
    try discriminate; inversion H; subst;
    match goal with
    | E : py_float_of_int _ = Raise _ |- _ => apply float_of_int_raise in E
    | E : py_fdiv _ _ = Raise _ |- _ => apply fdiv_raise in E
    | E : py_int_of_float _ = Raise _ |- _ => apply int_of_float_raise in E
    | E : py_fmod _ _ = Raise _ |- _ => apply fmod_raise in E
    end; tauto.
  - intros fp avg Hk Hp Hfp Havg.
    assert (Hl : Z.ltb (pages_processed c) 2 = false) by (apply Z.ltb_ge; lia).
    assert (Hr : estimate_completion c elapsed = rate_eta avg).
    { unfold estimate_completion; rewrite Hl, Hfp; cbn [bind]; rewrite Havg; cbn [bind].
      destruct (estimated_total_pages c) as [t|]; [|reflexivity].
      cbn [est_known] in Hk; rewrite Hk; reflexivity. }
    rewrite Hr; unfold rate_eta, py_fdiv.
    destruct (float_zero avg); split; try split; try reflexivity; discriminate.
  - intros t fp avg Ht Hn Hp Hfp Havg Ho.
    assert (Hl : Z.ltb (pages_processed c) 2 = false) by (apply Z.ltb_ge; lia).
    assert (Hb : negb (Z.eqb t 0) = true) by (apply negb_true_iff, Z.eqb_neq; exact Hn).
    unfold estimate_completion; rewrite Hl, Hfp; cbn [bind]; rewrite Havg; cbn [bind].
    rewrite Ht, Hb, Ho; reflexivity.
Qed.

Lemma estimate_completion_raises_witness :
  float_zero (fdiv (float_of_Z 0) (float_of_Z 2)) = true /\
  estimate_completion demo_two_pages (float_of_Z 0) = Raise ZeroDivisionError /\
  py_float_of_int (10 ^ 400 - 2) = Raise OverflowError /\
  estimate_completion demo_huge_total (float_of_Z 7) = Raise OverflowError.
Proof.
  split; [vm_compute; reflexivity|]. split.
  - apply (proj2 (proj1 (proj1 (proj2 (estimate_completion_raises demo_two_pages (float_of_Z 0)))
             (float_of_Z 2) (fdiv (float_of_Z 0) (float_of_Z 2)) eq_refl
             ltac:(vm_compute; discriminate) ltac:(vm_compute; reflexivity)
             ltac:(vm_compute; reflexivity)))).
    vm_compute; reflexivity.
  - split; [vm_compute; reflexivity|].
    apply (proj2 (proj2 (estimate_completion_raises demo_huge_total (float_of_Z 7)))
             (10 ^ 400)%Z (float_of_Z 2) (fdiv (float_of_Z 7) (float_of_Z 2)));
      first [reflexivity | vm_compute; reflexivity | vm_compute; discriminate | discriminate].
Defined.
Lemma no_nl_app (a b : string) : no_nl (a ++ b) = no_nl a && no_nl b.
Proof.
  unfold no_nl. induction a as [|ch a IH]; [reflexivity|].
  cbn [append list_ascii_of_string forallb]. rewrite IH, andb_assoc; reflexivity.
Qed.

Lemma no_nl_uint (d : Decimal.uint) : no_nl (NilEmpty.string_of_uint d) = true.
Proof.
  induction d; cbn [NilEmpty.string_of_uint]; try reflexivity;
    unfold no_nl in *; cbn [list_ascii_of_string forallb]; rewrite IHd; reflexivity.
Qed.

Lemma no_nl_Z_str (z : Z) : no_nl (Z_str z) = true.
Proof.
  unfold Z_str, NilEmpty.string_of_int. destruct (Z.to_int z) as [d|d].
  - apply no_nl_uint.
  - change (no_nl ("-" ++ NilEmpty.string_of_uint d) = true).
    rewrite no_nl_app, no_nl_uint; reflexivity.
Qed.

Lemma no_nl_scalar (v : json) : scalar_one_line v = true -> no_nl (py_str v) = true.
Proof.
  destruct v as [|[]|z|s| |]; cbn [scalar_one_line py_str py_repr]; try discriminate;
    try reflexivity.
  - intros _; apply no_nl_Z_str.
  - exact (fun H => H).
Qed.

Lemma no_nl_field (s : list (string * json)) (k : string) (dflt : json) :
  field_one_line s k = true -> scalar_one_line dflt = true ->
  no_nl (py_str (dict_get_or s k dflt)) = true.
Proof.
  unfold field_one_line, dict_get_or; destruct (dict_get s k); intros H1 H2;
    apply no_nl_scalar; assumption.
Qed.

(** When every field [format_record] reads is a scalar and no string field
    contains a newline, the formatted record holds no newline: each record
    written to an output file is exactly one line. *)
Theorem format_record_one_line :
  forall s,
  forallb (field_one_line s)
    ["session"; "asn4"; "client4"; "country"; "privatespoof"; "routedspoof"; "timestamp"]
  = true ->
  no_nl (format_record s) = true.
Proof.
  intros s H. cbn [forallb] in H.
  repeat (apply andb_true_iff in H; destruct H as [? H]).
  unfold format_record. repeat rewrite no_nl_app.
  repeat rewrite no_nl_field by (assumption || reflexivity).
  reflexivity.
Qed.

Lemma format_record_one_line_witness :
  forallb (field_one_line demo_record)
    ["session"; "asn4"; "client4"; "country"; "privatespoof"; "routedspoof"; "timestamp"]
  = true /\ no_nl (format_record demo_record) = true.
Proof.
  split; [vm_compute; reflexivity|].
  apply format_record_one_line; vm_compute; reflexivity.
Defined.


(** The counters after a successful run of the loop body on a dict page. *)
Lemma process_page_ok_totals : forall E d r r2 nx,
  process_page E (JObj d) r = (r2, Ok nx) ->
  exists ms ss,
  py_iter (dict_get_or d "hydra:member" (JArr [])) = Ok ms /\ objs_of ms = Some ss /\
  total_records (r_coll r2) = (total_records (r_coll r) + Z.of_nat (List.length ms))%Z /\
  total_routed (r_coll r2) =
    (total_routed (r_coll r) + Z.of_nat (List.length (filter routed_sel ss)))%Z /\
  total_private (r_coll r2) =
    (total_private (r_coll r) + Z.of_nat (List.length (filter private_sel ss)))%Z.
Proof.
  intros E d r r2 nx H.
  pose proof (update_progress_coll (r_coll r) (JObj d)) as [C1 [C2 [C3 _]]].
  page_cases H; run_facts; chase; intros;
  match goal with
  | Hp : Ok (?rc, ?pc) = snd (process_data _ _ _) |- _ =>
      symmetry in Hp;
      destruct (process_data_ok_inv _ _ _ _ _ Hp) as [d0 [ms [ss [Hd0 [Hi [Ho Hd]]]]]];
      injection Hd0 as <-;
      rewrite Hd in Hp; cbn [snd] in Hp; inversion Hp; subst;
      cbn [py_get] in Hget; inversion Hget; subst;
      rewrite (py_len_iter _ _ Hi) in Hlen; inversion Hlen; subst;
      exists ms, ss; rewrite ?C1, ?C2, ?C3; repeat split; assumption
  end.
Qed.

(** One iteration of [while next_url] on a dict page whose members are
    dicts: the page is counted, the total records grow by the number of
    members, the routed and private totals by the number of matching
    records, and the page number and [next_url] advance only when
    [hydra:view] has a [hydra:next] entry; otherwise [next_url] becomes
    None and the loop ends. *)
Theorem process_page_step :
  forall E d r r2 nx,
  process_page E (JObj d) r = (r2, Ok nx) ->
  exists ms ss,
  py_iter (dict_get_or d "hydra:member" (JArr [])) = Ok ms /\ objs_of ms = Some ss /\
  total_records (r_coll r2) = (total_records (r_coll r) + Z.of_nat (List.length ms))%Z /\
  total_routed (r_coll r2) =
    (total_routed (r_coll r) + Z.of_nat (List.length (filter routed_sel ss)))%Z /\
  total_private (r_coll r2) =
    (total_private (r_coll r) + Z.of_nat (List.length (filter private_sel ss)))%Z /\
  pages_processed (r_coll r2) = (pages_processed (r_coll r) + 1)%Z /\
  ((exists view, dict_get d "hydra:view" = Some view /\
     py_contains view "hydra:next" = Ok true /\ py_index view "hydra:next" = Ok nx /\
     page (r_coll r2) = (page (r_coll r) + 1)%Z) \/
   ((forall view, dict_get d "hydra:view" = Some view -> py_contains view "hydra:next" = Ok false) /\
     nx = JNull /\ page (r_coll r2) = page (r_coll r))).
Proof.
  intros E d r r2 nx H.
  destruct (process_page_ok_totals E d r r2 nx H) as [ms [ss [Hi [Ho [A [B C]]]]]].
  destruct (process_page_frame E (JObj d) r r2 (Ok nx) H) as [_ [_ [_ Pp]]].
  exists ms, ss. repeat (split; [assumption|]).
  exact (process_page_next E d r r2 nx H).
Qed.

Lemma process_page_step_witness :
  let r := after_fetch (initial_run demo_env) demo_url1 demo_evs1 in
  exists r2 nx, process_page demo_env (JObj demo_page1) r = (r2, Ok nx) /\
  exists ms ss,
  py_iter (dict_get_or demo_page1 "hydra:member" (JArr [])) = Ok ms /\ objs_of ms = Some ss /\
  total_records (r_coll r2) = (total_records (r_coll r) + Z.of_nat (List.length ms))%Z /\
  total_routed (r_coll r2) =
    (total_routed (r_coll r) + Z.of_nat (List.length (filter routed_sel ss)))%Z /\
  total_private (r_coll r2) =
    (total_private (r_coll r) + Z.of_nat (List.length (filter private_sel ss)))%Z /\
  pages_processed (r_coll r2) = (pages_processed (r_coll r) + 1)%Z /\
  ((exists view, dict_get demo_page1 "hydra:view" = Some view /\
     py_contains view "hydra:next" = Ok true /\ py_index view "hydra:next" = Ok nx /\
     page (r_coll r2) = (page (r_coll r) + 1)%Z) \/
   ((forall view, dict_get demo_page1 "hydra:view" = Some view ->
                  py_contains view "hydra:next" = Ok false) /\
     nx = JNull /\ page (r_coll r2) = page (r_coll r))).
Proof.
  intro r. exists (fst demo_step1), (snd demo_step1).
  assert (E : process_page demo_env (JObj demo_page1) r = (fst demo_step1, Ok (snd demo_step1)))
    by (vm_compute; reflexivity).
  split; [exact E|].
  exact (process_page_step demo_env demo_page1 r (fst demo_step1) (snd demo_step1) E).
Defined.

Lemma collect_loop_counts : forall E fuel nx r e r',
  collect_loop E fuel nx r = (e, r') ->
  (0 <= total_routed (r_coll r) <= total_records (r_coll r))%Z ->
  (0 <= total_private (r_coll r) <= total_records (r_coll r))%Z ->
  (0 <= total_routed (r_coll r') <= total_records (r_coll r'))%Z /\
  (0 <= total_private (r_coll r') <= total_records (r_coll r'))%Z.
Proof.
  induction fuel as [|f IH]; intros nx r e r' H HR HP; cbn [collect_loop] in H;
    destruct (truthy nx); cbn [negb] in H;
    try (inversion H; subst; tauto).
  destruct (fetch_page _) as [evs data].
  destruct data as [v|]; [|inversion H; subst; cbn; tauto].
  destruct (truthy v); [|inversion H; subst; cbn; tauto].
  destruct (process_page E v (after_fetch r (api_base E ++ py_str nx) evs))
    as [r2 [nx'|x]] eqn:Hp;
    destruct (process_page_counts _ _ _ _ _ Hp)
      as [drec [dr [dp [A [B [C [D1 [D2 _]]]]]]]];
    cbn [after_fetch r_coll] in A, B, C.
  - apply (IH nx' r2 e r' H); lia.
  - inversion H; subst; lia.
Qed.

(** In every run of [collect_data], finished, crashed or still running,
    the routed and private totals are non-negative and never exceed the
    total number of records processed. *)
Theorem collect_data_counts_bounded :
  forall E fuel,
  (0 <= total_routed (r_coll (o_run (collect_data E fuel))) <=
        total_records (r_coll (o_run (collect_data E fuel))))%Z /\
  (0 <= total_private (r_coll (o_run (collect_data E fuel))) <=
        total_records (r_coll (o_run (collect_data E fuel))))%Z.
Proof.
  intros E fuel. unfold collect_data.
  destruct (collect_loop E fuel (JStr (initial_url E)) (initial_run E)) as [e r'] eqn:Hl.
  apply collect_loop_counts in Hl; [| cbn; lia | cbn; lia].
  destruct e; cbn [finish o_run r_coll]; exact Hl.
Qed.

(** The loop body on a payload that is not a dict: the page is counted,
    nothing is written, and [TypeError] or [AttributeError] is raised. *)
Lemma process_page_non_dict : forall E v r r2 res,
  (forall d, v <> JObj d) -> process_page E v r = (r2, res) ->
  r_coll r2 = counted (r_coll r) /\ r_routed r2 = r_routed r /\ r_private r2 = r_private r /\
  (res = Raise AttributeError \/ res = Raise TypeError).
Proof.
  intros E v r r2 res Hv H.
  destruct (update_progress_non_dict (r_coll r) v Hv) as [H1 H2].
  destruct (update_progress (r_coll r) v) as [c1 res1] eqn:Hu; cbn [fst snd] in H1, H2; subst c1.
  cbv [process_page st_bind st_update_progress] in H; rewrite Hu in H.
  destruct H2 as [-> | ->]; cbv beta iota in H.
  - unfold st_process_data in H.
    rewrite (process_data_non_dict v _ _ Hv) in H. cbv beta iota in H.
    inversion H; subst; cbn; auto.
  - inversion H; subst; cbn; auto.
Qed.

(** A truthy payload that is not a dict (a non-empty list or string, a
    non-zero number, [True]) crashes the run with [AttributeError] or
    [TypeError]: the page is counted as processed, nothing else of it is
    counted or written, and the files are still closed. *)
Theorem non_dict_payload_crashes :
  forall E fuel url r evs v,
  truthy url = true ->
  fetch_page (server E (List.length (r_urls r)) (api_base E ++ py_str url)) = (evs, Some v) ->
  truthy v = true -> (forall d, v <> JObj d) ->
  (o_status (finish E (collect_loop E (S fuel) url r)) = Crashed AttributeError \/
   o_status (finish E (collect_loop E (S fuel) url r)) = Crashed TypeError) /\
  o_closed (finish E (collect_loop E (S fuel) url r)) = true /\
  r_coll (o_run (finish E (collect_loop E (S fuel) url r))) = counted (r_coll r) /\
  r_routed (o_run (finish E (collect_loop E (S fuel) url r))) = r_routed r /\
  r_private (o_run (finish E (collect_loop E (S fuel) url r))) = r_private r.
Proof.
  intros E fuel url r evs v Hu Hf Hv Hd.
  cbn [collect_loop]; rewrite Hu; cbn [negb]. rewrite Hf; cbv beta iota. rewrite Hv.
  destruct (process_page E v (after_fetch r (api_base E ++ py_str url) evs)) as [r2 res] eqn:Hp.
  apply process_page_non_dict in Hp; [|exact Hd].
  destruct Hp as [C [R [P [-> | ->]]]];
    cbn [finish o_status o_closed o_run]; rewrite C, R, P;
    cbn [after_fetch r_coll r_routed r_private]; repeat split; auto.
Qed.

Lemma non_dict_payload_crashes_witness :
  let E := demo_env_list in
  let url := JStr (initial_url E) in
  let r := initial_run E in
  (o_status (finish E (collect_loop E 1 url r)) = Crashed AttributeError \/
   o_status (finish E (collect_loop E 1 url r)) = Crashed TypeError) /\
  o_closed (finish E (collect_loop E 1 url r)) = true /\
  r_coll (o_run (finish E (collect_loop E 1 url r))) = counted (r_coll r) /\
  r_routed (o_run (finish E (collect_loop E 1 url r))) = r_routed r /\
  r_private (o_run (finish E (collect_loop E 1 url r))) = r_private r.
Proof.
  intros E url r.
  apply (non_dict_payload_crashes E 0 url r
           (fst (fetch_page (server E 0 (api_base E ++ py_str url)))) (JArr [JNum 1])).
  - reflexivity.
  - vm_compute; reflexivity.
  - reflexivity.
  - intros d H; discriminate.
Defined.
